(** * The prompt-optimisation service ([app.py]) as a Rocq model

    The FastAPI endpoint [otimizar_prompt_api] is embedded as a computation
    in an exception-over-state monad: exceptions are Python exception
    objects, the state holds the module global [client], the request object
    bound to the handler's parameter, the state of the remote generation
    service and the trace of outbound calls.  Behaviour that belongs to
    third-party libraries (the JSON reader used by pydantic, the text of a
    pydantic validation error, the remote Gemini service) enters as section
    variables, so every general theorem holds whatever those libraries do. *)

From Stdlib Require Import ZArith NArith List Bool String Ascii Lia SpecFloat.
From Stdlib.Strings Require Import Byte.
From ExtLib Require Import Structures.Monad Structures.MonadState Structures.MonadExc.
From ExtLib Require Import Data.Monads.StateMonad Data.Monads.EitherMonad.
Import ListNotations.
Import MonadNotation.
Local Open Scope monad_scope.
Local Open Scope list_scope.

Set Implicit Arguments.
Set Warnings "-register-all".

(* ===================================================================== *)
(** ** Python strings *)
(* ===================================================================== *)

(** A Python [str] is a sequence of Unicode code points; slicing and
    concatenation work on code points, not on bytes. *)
Definition str : Type := list N.

(** Decoding of the UTF-8 bytes of a literal of this file. *)
Fixpoint utf8_decode (bs : list N) : str :=
  match bs with
  | [] => []
  | b0 :: t0 =>
    if (b0 <? 128)%N then b0 :: utf8_decode t0
    else if (b0 <? 224)%N then
      match t0 with
      | b1 :: t1 => ((b0 mod 32) * 64 + b1 mod 64)%N :: utf8_decode t1
      | _ => []
      end
    else if (b0 <? 240)%N then
      match t0 with
      | b1 :: b2 :: t2 =>
        ((b0 mod 16) * 4096 + (b1 mod 64) * 64 + b2 mod 64)%N :: utf8_decode t2
      | _ => []
      end
    else
      match t0 with
      | b1 :: b2 :: b3 :: t3 =>
        ((b0 mod 8) * 262144 + (b1 mod 64) * 4096 + (b2 mod 64) * 64 + b3 mod 64)%N
          :: utf8_decode t3
      | _ => []
      end
  end.

(** [py "..."] is the Python string written between the quotes. *)
Definition py (s : string) : str :=
  utf8_decode (map Byte.to_N (list_byte_of_string s)).

(** [dq s] writes a double quote for every apostrophe of [s]; literals that
    contain double quotes are written with apostrophes and passed through
    [dq]. *)
Definition dq (s : str) : str :=
  map (fun c => if (c =? 39)%N then 34%N else c) s.

Fixpoint str_eqb (a b : str) : bool :=
  match a, b with
  | [], [] => true
  | x :: a', y :: b' => (x =? y)%N && str_eqb a' b'
  | _, _ => false
  end.

(** [s.startswith(p)] *)
Fixpoint startswith (p s : str) : bool :=
  match p, s with
  | [], _ => true
  | x :: p', y :: s' => (x =? y)%N && startswith p' s'
  | _ :: _, [] => false
  end.

(** Decimal digits of a natural number, most significant first. *)
Fixpoint digits (fuel : nat) (n : N) (acc : str) : str :=
  match fuel with
  | O => acc
  | S fuel' =>
    let acc' := (48 + n mod 10)%N :: acc in
    if (n / 10 =? 0)%N then acc' else digits fuel' (n / 10)%N acc'
  end.

(** [str(z)] for a Python [int]. *)
Definition str_of_int (z : Z) : str :=
  let n := Z.abs_N z in
  let ds := digits (S (N.size_nat n)) n [] in
  if (z <? 0)%Z then 45%N :: ds else ds.

(* ===================================================================== *)
(** ** JSON values, as Python objects *)
(* ===================================================================== *)

(** What a JSON document decodes to.  A [dict] is kept as its items in
    insertion order; a key occurs at most once in a Python [dict], and
    [dict_get] reads the first item with the key. *)
Inductive json : Type :=
| JNull
| JBool (b : bool)
| JInt (n : Z)
| JFloat (f : spec_float)
| JStr (s : str)
| JList (l : list json)
| JDict (items : list (str * json)).

Definition dict : Type := list (str * json).

Fixpoint dict_get (k : str) (d : dict) : option json :=
  match d with
  | [] => None
  | (k', v) :: d' => if str_eqb k k' then Some v else dict_get k d'
  end.

(* ===================================================================== *)
(** ** Exceptions *)
(* ===================================================================== *)

(** The exception objects that occur in [app.py].  Every constructor is an
    instance of [Exception]; [LibraryError] stands for any other subclass
    of [Exception] that a library raises (for instance
    [google.genai.errors.APIError] or a transport error). *)
Inductive PyExc : Type :=
| HTTPException (status_code : Z) (detail : str)  (* fastapi.HTTPException *)
| JSONDecodeError (msg : str)                     (* json.JSONDecodeError *)
| ValidationError (msg : str)                     (* pydantic_core.ValidationError *)
| LibraryError (cls : str) (msg : str).

(** The classes named by the [except] clauses of the endpoint. *)
Inductive ExcClass : Type :=
| cls_JSONDecodeError
| cls_Exception.

Definition isinstance (e : PyExc) (c : ExcClass) : bool :=
  match c, e with
  | cls_Exception, _ => true
  | cls_JSONDecodeError, JSONDecodeError _ => true
  | cls_JSONDecodeError, _ => false
  end.

(** [str(e)], which is what an f-string writes for [{e}].  Starlette's
    [HTTPException.__str__] returns [f"{status_code}: {detail}"]; the
    other classes print their message. *)
Definition exc_str (e : PyExc) : str :=
  match e with
  | HTTPException status_code detail => str_of_int status_code ++ py ": " ++ detail
  | JSONDecodeError msg => msg
  | ValidationError msg => msg
  | LibraryError _ msg => msg
  end.

(* ===================================================================== *)
(** ** Constants and data classes of [app.py] *)
(* ===================================================================== *)

Definition MODEL_NAME : str := py "gemini-2.5-flash".

Definition SYSTEM_INSTRUCTION : str := dq (py "
Você é um Otimizador de Prompts de IA especialista.
Sua tarefa é analisar o prompt do usuário, melhorá-lo significativamente e retornar a análise em um formato JSON estrito.
A otimização deve se concentrar em:
1.  **Clareza e Especificidade:** Remover ambiguidades.
2.  **Definição de Papel (Persona):** Atribuir um papel (ex: especialista, jornalista, professor) para o modelo.
3.  **Formato de Saída:** Solicitar explicitamente um formato (ex: lista, tabela, JSON, etc.).
4.  **Restrições:** Adicionar limites de tom, tamanho ou complexidade.

## FORMATO DE SAÍDA OBRIGATÓRIO (JSON):

Sua resposta DEVE ser um objeto JSON formatado EXATAMENTE assim:

{
  'prompt_otimizado': 'O novo prompt completo e melhorado, pronto para uso.',
  'dicas_aplicadas': [
    {
      'estrategia': 'Nome da Estratégia Aplicada (ex: Definição de Papel)',
      'detalhes': 'Explicação detalhada do que foi alterado e o porquê.'
    },
    // Adicione mais objetos para cada otimização aplicada
  ]
}

Garanta que o JSON seja válido e que não haja nenhum texto ou explicação fora da estrutura JSON.
").

(** [class PromptRequest(BaseModel)] *)
Record PromptRequest : Type := { prompt_original : str }.

(** [class OtimizacaoResponse(BaseModel)]: [dicas_aplicadas] is declared
    [list[dict]], a list of dictionaries of any content. *)
Record OtimizacaoResponse : Type :=
  { prompt_otimizado : str;
    dicas_aplicadas : list dict }.

(** [types.GenerateContentConfig], with the two fields the endpoint sets. *)
Record GenerateContentConfig : Type :=
  { system_instruction : str;
    response_mime_type : str }.

(** The keyword arguments of one [client.models.generate_content] call. *)
Record GenerateCall : Type :=
  { model : str;
    contents : list str;
    config : GenerateContentConfig }.

(** The reply of the generation service; the endpoint reads [.text]. *)
Record GenerateContentResponse : Type := { text : str }.

(** [genai.Client]: built from the credential found in the environment. *)
Record Client : Type := { api_key : str }.

(** The messages of the four [raise HTTPException] sites. *)
Definition DETAIL_UNAVAILABLE : str :=
  py "Serviço indisponível: O cliente Gemini não foi inicializado corretamente. Verifique sua chave de API.".
Definition DETAIL_NOT_JSON : str :=
  py "O modelo retornou uma string que não é um JSON válido. Conteúdo: ".
Definition DETAIL_SCHEMA : str :=
  py "O JSON retornado pelo modelo não corresponde à estrutura esperada. Erro de validação: ".
Definition DETAIL_GEMINI : str :=
  py "Erro na chamada da API Gemini: ".

(* ===================================================================== *)
(** ** Validation against the pydantic models *)
(* ===================================================================== *)

(** A field annotated [str] accepts a JSON string and nothing else. *)
Definition as_str (j : json) : option str :=
  match j with JStr s => Some s | _ => None end.

(** An item annotated [dict] accepts a JSON object, whatever its keys and
    values. *)
Definition as_dict (j : json) : option dict :=
  match j with JDict d => Some d | _ => None end.

(** [list[dict]]: every item must be a JSON object; the items keep their
    order. *)
Fixpoint as_list_of_dict (l : list json) : option (list dict) :=
  match l with
  | [] => Some []
  | j :: l' =>
    match as_dict j, as_list_of_dict l' with
    | Some d, Some ds => Some (d :: ds)
    | _, _ => None
    end
  end.

(** Validation of a decoded request body against [PromptRequest]: the body
    must be an object whose [prompt_original] is a string.  The model
    declares no constraint on the string itself. *)
Definition PromptRequest_model_validate (body : json) : option PromptRequest :=
  match body with
  | JDict items =>
    match dict_get (py "prompt_original") items with
    | Some (JStr s) => Some {| prompt_original := s |}
    | _ => None
    end
  | _ => None
  end.

(** Validation of a decoded document against [OtimizacaoResponse]: an
    object with both required fields of the declared types.  Fields the
    model does not declare are not looked at (pydantic's default
    [extra='ignore']). *)
Definition OtimizacaoResponse_model_validate (j : json) : option OtimizacaoResponse :=
  match j with
  | JDict items =>
    match dict_get (py "prompt_otimizado") items,
          dict_get (py "dicas_aplicadas") items with
    | Some (JStr p), Some (JList l) =>
      match as_list_of_dict l with
      | Some ds => Some {| prompt_otimizado := p; dicas_aplicadas := ds |}
      | None => None
      end
    | _, _ => None
    end
  | _ => None
  end.

(* ===================================================================== *)
(** ** The endpoint *)
(* ===================================================================== *)

Section Service.

(** The JSON reader inside [model_validate_json]: [None] when the text is
    not a JSON document. *)
Variable json_loads : str -> option json.

(** [str(e)] of the [ValidationError] pydantic raises for a given input
    text. *)
Variable validation_message : str -> str.

(** The remote generation service: a call is answered with a reply or an
    exception, and may change the state of the service. *)
Variable Remote : Type.
Variable generate_content :
  Client -> GenerateCall -> Remote -> (PyExc + GenerateContentResponse) * Remote.

(** What lives longer than one call: the module global [client], the
    remote service, and the trace of the calls sent to it. *)
Record World : Type :=
  { client : option Client;
    remote : Remote;
    calls : list GenerateCall }.

(** What one run of the handler can read and write: the object bound to
    its parameter [request], and the world. *)
Record Frame : Type :=
  { request : PromptRequest;
    world : World }.

(** Python computations: an exception ends the computation, the writes
    done before it stay. *)
Definition Py : Type -> Type := eitherT PyExc (state Frame).

Definition run {A : Type} (c : Py A) (fr : Frame) : (PyExc + A) * Frame :=
  runState (unEitherT c) fr.

(** [try: body except C1 as e: h1 except C2 as e: h2 ...]: the first
    clause whose class the exception is an instance of handles it; an
    exception no clause matches, or one raised by a handler, leaves the
    statement. *)
Fixpoint select_clause {A : Type} (e : PyExc)
         (clauses : list (ExcClass * (PyExc -> Py A))) : Py A :=
  match clauses with
  | [] => raise e
  | (c, h) :: rest => if isinstance e c then h e else select_clause e rest
  end.

Definition try_except {A : Type} (body : Py A)
           (clauses : list (ExcClass * (PyExc -> Py A))) : Py A :=
  catch body (fun e => select_clause e clauses).

(** The frame after [call] went out through [cl]: the service moved on
    and the trace has one more entry; nothing else is written. *)
Definition after_call (cl : Client) (call : GenerateCall) (fr : Frame) : Frame :=
  let w := world fr in
  {| request := request fr;
     world := {| client := client w;
                 remote := snd (generate_content cl call (remote w));
                 calls := calls w ++ [call] |} |}.

(** [client.models.generate_content(model=..., contents=..., config=...)] *)
Definition models_generate_content (cl : Client) (m : str) (cs : list str)
           (cfg : GenerateContentConfig) : Py GenerateContentResponse :=
  fr <- get ;;
  let call := {| model := m; contents := cs; config := cfg |} in
  put (after_call cl call fr) ;;
  match fst (generate_content cl call (remote (world fr))) with
  | inl e => raise e
  | inr response => ret response
  end.

(** [OtimizacaoResponse.model_validate_json]: pydantic reports a text
    that is not JSON and a document of the wrong shape alike, with a
    [ValidationError]. *)
Definition OtimizacaoResponse_model_validate_json (json_output : str)
  : Py OtimizacaoResponse :=
  match json_loads json_output with
  | None => raise (ValidationError (validation_message json_output))
  | Some j =>
    match OtimizacaoResponse_model_validate j with
    | Some validated => ret validated
    | None => raise (ValidationError (validation_message json_output))
    end
  end.

(** The [except] clauses of the inner [try], around the validation of
    [json_output]. *)
Definition except_validation (json_output : str)
  : list (ExcClass * (PyExc -> Py OtimizacaoResponse)) :=
  [ (cls_JSONDecodeError, fun _ =>
       raise (HTTPException 500
                (DETAIL_NOT_JSON ++ firstn 200 json_output ++ py "...")));
    (cls_Exception, fun e =>
       raise (HTTPException 500 (DETAIL_SCHEMA ++ exc_str e))) ].

(** The [except] clause of the outer [try], around the call and
    everything after it. *)
Definition except_call : list (ExcClass * (PyExc -> Py OtimizacaoResponse)) :=
  [ (cls_Exception, fun e =>
       raise (HTTPException 500 (DETAIL_GEMINI ++ exc_str e))) ].

(** [async def otimizar_prompt_api(request: PromptRequest)] *)
Definition otimizar_prompt_api : Py OtimizacaoResponse :=
  fr <- get ;;
  match client (world fr) with
  | None => raise (HTTPException 503 DETAIL_UNAVAILABLE)
  | Some cl =>
    let prompt_original := prompt_original (request fr) in
    let config :=
      {| system_instruction := SYSTEM_INSTRUCTION;
         response_mime_type := py "application/json" |} in
    try_except
      (response <- models_generate_content cl MODEL_NAME [prompt_original] config ;;
       let json_output := text response in
       try_except
         (resultado_validado <- OtimizacaoResponse_model_validate_json json_output ;;
          ret resultado_validado)
         (except_validation json_output))
      except_call
  end.

(** The call the handler sends for a request: the fixed model, the prompt
    as the only content, the fixed instruction and the JSON directive. *)
Definition outbound (req : PromptRequest) : GenerateCall :=
  {| model := MODEL_NAME;
     contents := [prompt_original req];
     config := {| system_instruction := SYSTEM_INSTRUCTION;
                  response_mime_type := py "application/json" |} |}.

(** The module-level [try: client = genai.Client() except Exception:
    ... client = None]; [ctor] is what the constructor did.  (The two
    [print] calls write to the console, which is not modelled.) *)
Definition load_client (ctor : PyExc + Client) : option Client :=
  match ctor with
  | inr cl => Some cl
  | inl _ => None
  end.

Definition startup (ctor : PyExc + Client) (r : Remote) : World :=
  {| client := load_client ctor; remote := r; calls := [] |}.

(** What the caller of the HTTP operation observes. *)
Inductive Outcome : Type :=
| Success (r : OtimizacaoResponse)      (* 200, the response model *)
| Failure (status : Z) (detail : str)   (* an HTTPException, rendered by FastAPI *)
| Unprocessable                         (* 422, the body failed request validation *)
| Unhandled (e : PyExc).                (* any other exception leaving the handler *)

Definition render (o : PyExc + OtimizacaoResponse) : Outcome :=
  match o with
  | inr r => Success r
  | inl (HTTPException status_code detail) => Failure status_code detail
  | inl e => Unhandled e
  end.

(** [@app.post("/otimizar/")]: FastAPI validates the decoded body
    ([None]: no JSON body) against [PromptRequest] before it calls the
    handler with the resulting object. *)
Definition post_otimizar (body : option json) (w : World) : Outcome * World :=
  match body with
  | None => (Unprocessable, w)
  | Some b =>
    match PromptRequest_model_validate b with
    | None => (Unprocessable, w)
    | Some req =>
      let r := run otimizar_prompt_api {| request := req; world := w |} in
      (render (fst r), world (snd r))
    end
  end.

(** The service answering a sequence of requests, one after the other. *)
Fixpoint serve (bodies : list (option json)) (w : World) : list Outcome * World :=
  match bodies with
  | [] => ([], w)
  | b :: rest =>
    let r := post_otimizar b w in
    let rs := serve rest (snd r) in
    (fst r :: fst rs, snd rs)
  end.

(** The failure categories of the specification, read off the endpoint:
    each category is one raise site, told apart by its status code and
    by the fixed text its detail starts with. *)
Inductive FailureCategory : Type :=
| InvalidRequest
| ServiceUnavailable
| UpstreamUnavailable
| MalformedOutput
| SchemaMismatch.

Definition category (o : Outcome) : option FailureCategory :=
  match o with
  | Success _ => None
  | Unprocessable => Some InvalidRequest
  | Failure status detail =>
    if (status =? 503)%Z then Some ServiceUnavailable
    else if (status =? 500)%Z then
      if startswith DETAIL_NOT_JSON detail then Some MalformedOutput
      else if startswith DETAIL_SCHEMA detail then Some SchemaMismatch
      else if startswith DETAIL_GEMINI detail then Some UpstreamUnavailable
      else None
    else None
  | Unhandled _ => None
  end.

(** The request body that carries the prompt [p] and nothing else. *)
Definition body_of (p : str) : option json :=
  Some (JDict [(py "prompt_original", JStr p)]).

(** The raw value found under [prompt_original] in a request body. *)
Definition prompt_field (body : option json) : option json :=
  match body with
  | Some (JDict items) => dict_get (py "prompt_original") items
  | _ => None
  end.

(** The raw value found under [dicas_aplicadas] in a decoded reply. *)
Definition tips_field (j : json) : option json :=
  match j with
  | JDict items => dict_get (py "dicas_aplicadas") items
  | _ => None
  end.

(** A collaborator is deterministic when its answer depends on the call
    alone, not on the state of the service. *)
Definition deterministic : Prop :=
  forall cl call r1 r2,
    fst (generate_content cl call r1) = fst (generate_content cl call r2).

End Service.

(* ===================================================================== *)
(** ** Stand-ins for the libraries, for concrete runs *)
(* ===================================================================== *)

(** The general theorems quantify over the JSON reader, the validation
    message and the collaborator.  Concrete runs use the stand-ins of this
    module: a reader for the JSON documents without escapes, fractions and
    exponents (it refuses everything else), a fixed validation message,
    and collaborators that always give the same answer. *)
Module Stub.

Definition is_ws (c : N) : bool :=
  ((c =? 32) || (c =? 9) || (c =? 10) || (c =? 13))%N.

Fixpoint skip_ws (s : str) : str :=
  match s with
  | c :: t => if is_ws c then skip_ws t else s
  | [] => []
  end.

(** The characters up to the closing quote. *)
Fixpoint read_string (s acc : str) : option (str * str) :=
  match s with
  | [] => None
  | c :: t =>
    if (c =? 34)%N then Some (rev acc, t)
    else if ((c =? 92) || (c <? 32))%N then None
    else read_string t (c :: acc)
  end.

Definition is_digit (c : N) : bool := ((48 <=? c) && (c <=? 57))%N.

Fixpoint read_digits (s : str) (acc : N) : N * str :=
  match s with
  | c :: t => if is_digit c then read_digits t (acc * 10 + (c - 48))%N else (acc, s)
  | [] => (acc, [])
  end.

(** An integer: an optional minus sign, then either 0 or a digit string
    that does not start with 0; no fraction and no exponent may follow. *)
Definition read_int (s : str) : option (json * str) :=
  let '(neg, s1) := match s with
                    | c :: t => if (c =? 45)%N then (true, t) else (false, s)
                    | [] => (false, s)
                    end in
  match s1 with
  | c :: t =>
    if is_digit c then
      let '(n, rest) := if (c =? 48)%N then (0%N, t) else read_digits s1 0%N in
      match rest with
      | c' :: _ =>
        if is_digit c' || (c' =? 46)%N || (c' =? 101)%N || (c' =? 69)%N then None
        else Some (JInt (if neg then - Z.of_N n else Z.of_N n), rest)
      | [] => Some (JInt (if neg then - Z.of_N n else Z.of_N n), rest)
      end
    else None
  | [] => None
  end.

(** [d[k] = v] *)
Fixpoint dict_set (k : str) (v : json) (d : dict) : dict :=
  match d with
  | [] => [(k, v)]
  | (k', v') :: d' =>
    if str_eqb k k' then (k', v) :: d' else (k', v') :: dict_set k v d'
  end.

Fixpoint read_value (fuel : nat) (s : str) : option (json * str) :=
  match fuel with
  | O => None
  | S fuel' =>
    match skip_ws s with
    | [] => None
    | c :: t =>
      if (c =? 123)%N then
        match skip_ws t with
        | c' :: t' =>
          if (c' =? 125)%N then Some (JDict [], t') else read_members fuel' t []
        | [] => None
        end
      else if (c =? 91)%N then
        match skip_ws t with
        | c' :: t' =>
          if (c' =? 93)%N then Some (JList [], t') else read_elements fuel' t []
        | [] => None
        end
      else if (c =? 34)%N then
        match read_string t [] with
        | Some (v, rest) => Some (JStr v, rest)
        | None => None
        end
      else if startswith (py "true") (c :: t) then Some (JBool true, skipn 4 (c :: t))
      else if startswith (py "false") (c :: t) then Some (JBool false, skipn 5 (c :: t))
      else if startswith (py "null") (c :: t) then Some (JNull, skipn 4 (c :: t))
      else read_int (c :: t)
    end
  end
with read_elements (fuel : nat) (s : str) (acc : list json) : option (json * str) :=
  match fuel with
  | O => None
  | S fuel' =>
    match read_value fuel' s with
    | Some (v, rest) =>
      match skip_ws rest with
      | c :: rest' =>
        if (c =? 44)%N then read_elements fuel' rest' (v :: acc)
        else if (c =? 93)%N then Some (JList (rev (v :: acc)), rest')
        else None
      | [] => None
      end
    | None => None
    end
  end
with read_members (fuel : nat) (s : str) (acc : dict) : option (json * str) :=
  match fuel with
  | O => None
  | S fuel' =>
    match skip_ws s with
    | c :: t =>
      if (c =? 34)%N then
        match read_string t [] with
        | Some (k, rest) =>
          match skip_ws rest with
          | c' :: rest' =>
            if (c' =? 58)%N then
              match read_value fuel' rest' with
              | Some (v, rest'') =>
                match skip_ws rest'' with
                | c'' :: r =>
                  if (c'' =? 44)%N then read_members fuel' r (dict_set k v acc)
                  else if (c'' =? 125)%N then Some (JDict (dict_set k v acc), r)
                  else None
                | [] => None
                end
              | None => None
              end
            else None
          | [] => None
          end
        | None => None
        end
      else None
    | [] => None
    end
  end.

Definition json_loads (s : str) : option json :=
  match read_value (2 * List.length s + 2) s with
  | Some (v, rest) =>
    match skip_ws rest with
    | [] => Some v
    | _ :: _ => None
    end
  | None => None
  end.

Definition validation_message (json_output : str) : str :=
  py "1 validation error for OtimizacaoResponse".

(** A collaborator that answers every call with the same text. *)
Definition replies (reply : str)
  : Client -> GenerateCall -> unit -> (PyExc + GenerateContentResponse) * unit :=
  fun _ _ _ => (inr {| text := reply |}, tt).

(** A collaborator whose every call fails. *)
Definition fails (e : PyExc)
  : Client -> GenerateCall -> unit -> (PyExc + GenerateContentResponse) * unit :=
  fun _ _ _ => (inl e, tt).

Definition a_client : Client := {| api_key := py "test-key" |}.

(** The world after a start in which [genai.Client()] succeeded. *)
Definition ready : World unit := startup (inr a_client) tt.

(** The world after a start in which [genai.Client()] raised. *)
Definition degraded : World unit :=
  startup (inl (LibraryError (py "ValueError") (py "Missing key inputs argument!"))) tt.

(** The stand-ins plugged into the endpoint. *)
Definition api (collaborator :
                  Client -> GenerateCall -> unit
                  -> (PyExc + GenerateContentResponse) * unit)
  : Py unit OtimizacaoResponse :=
  otimizar_prompt_api json_loads validation_message collaborator.

Definition post (collaborator :
                   Client -> GenerateCall -> unit
                   -> (PyExc + GenerateContentResponse) * unit)
  : option json -> World unit -> Outcome * World unit :=
  post_otimizar json_loads validation_message collaborator.

(** The frame of a call that carries the prompt [p] to a ready service. *)
Definition frame_of (p : str) : Frame unit :=
  {| request := {| prompt_original := p |}; world := ready |}.

Definition haiku_prompt : str := py "Write a haiku about the sea".

(** The replies used in the examples. *)
Definition haiku_reply : str :=
  dq (py "{'prompt_otimizado': 'Write a haiku about the sea, as a marine biologist, in exactly 3 lines.', 'dicas_aplicadas': [{'estrategia': 'Persona', 'detalhes': 'Added a role.'}]}").

Definition not_json_reply : str := py "not json at all".

Definition missing_tips_reply : str := dq (py "{'prompt_otimizado': 'x'}").

Definition odd_tips_reply : str :=
  dq (py "{'prompt_otimizado': 'x', 'dicas_aplicadas': [{'foo': 1}, {'estrategia': 2, 'detalhes': null}]}").

Definition text_among_tips_reply : str :=
  dq (py "{'prompt_otimizado': 'x', 'dicas_aplicadas': [{'estrategia': 'Persona', 'detalhes': 'Added a role.'}, 'oops']}").

Definition extra_field_reply : str :=
  dq (py "{'prompt_otimizado': 'x', 'versao': 2, 'dicas_aplicadas': []}").

Definition network_down : PyExc :=
  LibraryError (py "ConnectError") (py "[Errno 111] Connection refused").

End Stub.

(* ===================================================================== *)
(** ** The response as JSON *)
(* ===================================================================== *)

(** What FastAPI sends for a returned [OtimizacaoResponse]
    ([response_model=OtimizacaoResponse]): an object with the two declared
    fields, in the order of their declaration. *)
Definition OtimizacaoResponse_model_dump (r : OtimizacaoResponse) : json :=
  JDict [ (py "prompt_otimizado", JStr (prompt_otimizado r));
          (py "dicas_aplicadas", JList (map JDict (dicas_aplicadas r))) ].

(** The response shape as the specification words it (its section 3):
    every entry of [dicas_aplicadas] is a pair of exactly the two keys
    [estrategia] and [detalhes], both holding strings.  The code does not
    use this definition; it is here to be compared with what the response
    model accepts. *)
Definition is_tip_pair (d : dict) : bool :=
  match dict_get (py "estrategia") d, dict_get (py "detalhes") d with
  | Some (JStr _), Some (JStr _) => Nat.eqb (List.length d) 2
  | _, _ => false
  end.

Definition spec_well_formed (r : OtimizacaoResponse) : bool :=
  forallb is_tip_pair (dicas_aplicadas r).

(* ===================================================================== *)
(** ** The command-line script ([lapida.py]) *)
(* ===================================================================== *)

Module Lapida.

Definition nl : str := [10%N].

Definition MODEL_NAME : str := py "gemini-2.5-flash".

Definition SYSTEM_INSTRUCTION : str := dq (py "
Você é um Otimizador de Prompts de IA especialista.
Sua tarefa é analisar o prompt do usuário, melhorá-lo significativamente e retornar a análise em um formato JSON estrito.
A otimização deve se concentrar em:
1.  **Clareza e Especificidade:** Remover ambiguidades.
2.  **Definição de Papel (Persona):** Atribuir um papel (ex: especialista, jornalista, professor) para o modelo.
3.  **Formato de Saída:** Solicitar explicitamente um formato (ex: lista, tabela, JSON, etc.).
4.  **Restrições:** Adicionar limites de tom, tamanho ou complexidade.

## FORMATO DE SAÍDA OBRIGATÓRIO (JSON):

Sua resposta DEVE ser um objeto JSON formatado EXATAMENTE assim:

{
  'prompt_otimizado': 'O novo prompt completo e melhorado, pronto para uso.',
  'dicas_aplicadas': [
    {
      'estrategia': 'Nome da Estratégia Aplicada (ex: Definição de Papel)',
      'detalhes': 'Explicação detalhada do que foi alterado e o porquê.'
    },
    // Adicione mais objetos para cada otimização aplicada
  ]
}

Garanta que o JSON seja válido e que não haja nenhum texto ou explicação fora da estrutura JSON.
").

(** The exceptions of Python's own operations.  [str(KeyError(k))] is the
    [repr] of the key: for the keys of this script, the key between
    apostrophes. *)
Definition KeyError (k : str) : PyExc :=
  LibraryError (py "KeyError") (py "'" ++ k ++ py "'").

Definition TypeError (msg : str) : PyExc :=
  LibraryError (py "TypeError") msg.

(** How the module load ends: with a client, or with the process gone
    after the two lines it printed ([exit()] raises [SystemExit], which no
    clause of the file catches). *)
Inductive Loaded : Type :=
| Ready (cl : Client)
| Exited (out : list str).

(** The module-level [try: client = genai.Client() except Exception as e:
    print(...); print(...); exit()]. *)
Definition load (ctor : PyExc + Client) : Loaded :=
  match ctor with
  | inr cl => Ready cl
  | inl e =>
    Exited [ py "Erro ao inicializar o cliente: " ++ exc_str e ++ nl;
             py "Certifique-se de que a variável de ambiente GEMINI_API_KEY está configurada corretamente." ++ nl ]
  end.

Section Script.

(** [json.loads]: [None] when it raises [JSONDecodeError]. *)
Variable json_loads : str -> option json.

(** [str(e)] of that [JSONDecodeError]. *)
Variable decode_message : str -> str.

(** The messages of the [TypeError] raised when a value that is not a
    [dict] is subscripted with a string, and when a value that cannot be
    iterated is iterated. *)
Variable subscript_message : json -> str.
Variable iter_message : json -> str.

(** [str(v)] of a float, a list or a dict. *)
Variable repr : json -> str.

Variable Remote : Type.
Variable generate_content :
  Client -> GenerateCall -> Remote -> (PyExc + GenerateContentResponse) * Remote.

(** [v[k]] for a string key [k]. *)
Definition getitem (v : json) (k : str) : PyExc + json :=
  match v with
  | JDict d =>
    match dict_get k d with
    | Some x => inr x
    | None => inl (KeyError k)
    end
  | _ => inl (TypeError (subscript_message v))
  end.

(** The values [for x in v] goes through: the items of a list, the keys
    of a dict, the characters of a string. *)
Definition iter (v : json) : PyExc + list json :=
  match v with
  | JList l => inr l
  | JDict d => inr (map (fun kv => JStr (fst kv)) d)
  | JStr s => inr (map (fun c => JStr [c]) s)
  | _ => inl (TypeError (iter_message v))
  end.

(** What an f-string writes for [{v}]. *)
Definition format (v : json) : str :=
  match v with
  | JStr s => s
  | JNull => py "None"
  | JBool true => py "True"
  | JBool false => py "False"
  | JInt n => str_of_int n
  | _ => repr v
  end.

(** The running script: the loaded client, the remote service, the trace
    of the calls sent to it, and what was written to the console. *)
Record Process : Type :=
  { client : Client;
    remote : Remote;
    calls : list GenerateCall;
    stdout : list str }.

Definition Script : Type -> Type := eitherT PyExc (state Process).

Definition run {A : Type} (c : Script A) (p : Process) : (PyExc + A) * Process :=
  runState (unEitherT c) p.

Definition write (s : str) : Script unit :=
  p <- get ;;
  put {| client := client p; remote := remote p; calls := calls p;
         stdout := stdout p ++ [s] |}.

(** [print(s)] *)
Definition print (s : str) : Script unit := write (s ++ nl).

Definition result {A : Type} (r : PyExc + A) : Script A :=
  match r with
  | inl e => raise e
  | inr a => ret a
  end.

Fixpoint select_clause {A : Type} (e : PyExc)
         (clauses : list (ExcClass * (PyExc -> Script A))) : Script A :=
  match clauses with
  | [] => raise e
  | (c, h) :: rest => if isinstance e c then h e else select_clause e rest
  end.

Definition try_except {A : Type} (body : Script A)
           (clauses : list (ExcClass * (PyExc -> Script A))) : Script A :=
  catch body (fun e => select_clause e clauses).

(** [for x in l: body] *)
Fixpoint for_each {A : Type} (l : list A) (body : A -> Script unit) : Script unit :=
  match l with
  | [] => ret tt
  | x :: rest => body x ;; for_each rest body
  end.

(** The call [otimizar_prompt] sends for a prompt. *)
Definition outbound (prompt_original : str) : GenerateCall :=
  {| model := MODEL_NAME;
     contents := [prompt_original];
     config := {| system_instruction := SYSTEM_INSTRUCTION;
                  response_mime_type := py "application/json" |} |}.

(** [client.models.generate_content(model=..., contents=..., config=...)] *)
Definition models_generate_content (m : str) (cs : list str)
           (cfg : GenerateContentConfig) : Script GenerateContentResponse :=
  p <- get ;;
  let call := {| model := m; contents := cs; config := cfg |} in
  let answer := generate_content (client p) call (remote p) in
  put {| client := client p; remote := snd answer;
         calls := calls p ++ [call]; stdout := stdout p |} ;;
  result (fst answer).

(** [def otimizar_prompt(prompt_original: str)] *)
Definition otimizar_prompt (prompt_original : str) : Script str :=
  print (py "--- PROMPT ORIGINAL ---" ++ nl ++ prompt_original ++ nl) ;;
  let config :=
    {| system_instruction := SYSTEM_INSTRUCTION;
       response_mime_type := py "application/json" |} in
  try_except
    (response <- models_generate_content MODEL_NAME [prompt_original] config ;;
     let json_output := text response in
     ret json_output)
    [ (cls_Exception, fun e => ret (py "Erro na chamada da API: " ++ exc_str e)) ].

(** [json.loads(s)] *)
Definition loads (s : str) : Script json :=
  match json_loads s with
  | Some j => ret j
  | None => raise (JSONDecodeError (decode_message s))
  end.

(** The line printed for one [dica]. *)
Definition print_dica (dica : json) : Script unit :=
  estrategia <- result (getitem dica (py "estrategia")) ;;
  detalhes <- result (getitem dica (py "detalhes")) ;;
  print (py "- **" ++ format estrategia ++ py "**: " ++ format detalhes).

(** The [try] block of the script: decode the text and print it in a
    readable form. *)
Definition show_parsed (resultado_json : str) : Script unit :=
  resultado <- loads resultado_json ;;
  print (nl ++ repeat 61%N 50) ;;
  print (py "AGENT FÁCIL DE LER (PARSED):") ;;
  print (repeat 61%N 50) ;;
  prompt_otimizado <- result (getitem resultado (py "prompt_otimizado")) ;;
  print (py "PROMPT OTIMIZADO:" ++ nl ++ format prompt_otimizado) ;;
  print (nl ++ py "--- DICAS APLICADAS ---") ;;
  dicas_aplicadas <- result (getitem resultado (py "dicas_aplicadas")) ;;
  dicas <- result (iter dicas_aplicadas) ;;
  for_each dicas print_dica.

(** The [if __name__ == "__main__":] block, from the moment [input]
    returned the line [typed]. *)
Definition main (typed : str) : Script unit :=
  write (py "Digite o prompt a ser melhorado:" ++ nl) ;;
  let prompt_teste := typed in
  resultado_json <- otimizar_prompt prompt_teste ;;
  print (py "--- RESULTADO JSON RECEBIDO ---") ;;
  print resultado_json ;;
  try_except
    (show_parsed resultado_json)
    [ (cls_JSONDecodeError, fun _ =>
         print (nl ++ py "ERRO: O modelo não retornou um JSON válido. Verifique o System Instruction."));
      (cls_Exception, fun e =>
         print (nl ++ py "Ocorreu um erro ao processar o resultado: " ++ exc_str e)) ].

(** The process after [lines] were written to the console. *)
Definition wrote (p : Process) (lines : list str) : Process :=
  {| client := client p; remote := remote p; calls := calls p;
     stdout := stdout p ++ lines |}.

(** The process after [otimizar_prompt] ran for a prompt: the banner was
    printed, the call went out, the service moved on. *)
Definition asked (prompt_original : str) (p : Process) : Process :=
  {| client := client p;
     remote := snd (generate_content (client p) (outbound prompt_original) (remote p));
     calls := calls p ++ [outbound prompt_original];
     stdout := stdout p
                 ++ [(py "--- PROMPT ORIGINAL ---" ++ nl ++ prompt_original ++ nl) ++ nl] |}.

(** What [otimizar_prompt] hands back for an answer of the collaborator. *)
Definition handed_back (answer : PyExc + GenerateContentResponse) : str :=
  match answer with
  | inr response => text response
  | inl e => py "Erro na chamada da API: " ++ exc_str e
  end.

(** The console line of a [dica] that has both keys. *)
Definition dica_line (d : dict) : str :=
  match dict_get (py "estrategia") d, dict_get (py "detalhes") d with
  | Some estrategia, Some detalhes =>
    (py "- **" ++ format estrategia ++ py "**: " ++ format detalhes) ++ nl
  | _, _ => []
  end.

(** Whether a [dica] has both keys the loop reads. *)
Definition has_both (d : dict) : bool :=
  match dict_get (py "estrategia") d, dict_get (py "detalhes") d with
  | Some _, Some _ => true
  | _, _ => false
  end.

(** The exception the body of the loop raises on a [dica], if any:
    [estrategia] is read first, then [detalhes]. *)
Definition dica_error (dica : json) : option PyExc :=
  match getitem dica (py "estrategia") with
  | inl e => Some e
  | inr _ =>
    match getitem dica (py "detalhes") with
    | inl e => Some e
    | inr _ => None
    end
  end.

(** What the script has on the console when the readable view starts:
    the prompt of [input], the banner, and the text it received. *)
Definition preamble (typed resultado_json : str) : list str :=
  [ py "Digite o prompt a ser melhorado:" ++ nl;
    (py "--- PROMPT ORIGINAL ---" ++ nl ++ typed ++ nl) ++ nl;
    py "--- RESULTADO JSON RECEBIDO ---" ++ nl;
    resultado_json ++ nl ].

(** The head of the readable view, down to the line of the prompt. *)
Definition view_head (prompt_otimizado : json) : list str :=
  [ (nl ++ repeat 61%N 50) ++ nl;
    py "AGENT FÁCIL DE LER (PARSED):" ++ nl;
    repeat 61%N 50 ++ nl;
    (py "PROMPT OTIMIZADO:" ++ nl ++ format prompt_otimizado) ++ nl;
    (nl ++ py "--- DICAS APLICADAS ---") ++ nl ].

(** The whole program: what it wrote, and the calls it sent. *)
Definition program (ctor : PyExc + Client) (typed : str) (r : Remote)
  : list str * list GenerateCall :=
  match load ctor with
  | Exited out => (out, [])
  | Ready cl =>
    let p := snd (run (main typed)
                      {| client := cl; remote := r; calls := []; stdout := [] |}) in
    (stdout p, calls p)
  end.

End Script.

(** Stand-ins for the libraries, for concrete runs of the script. *)
Definition stub_message (v : json) : str := py "TypeError".
Definition stub_decode_message (s : str) : str := py "Expecting value: line 1 column 1 (char 0)".
Definition stub_repr (v : json) : str := py "<object>".

(** The script right after a successful load, nothing sent or written. *)
Definition stub_process : Process unit :=
  {| client := Stub.a_client; remote := tt; calls := []; stdout := [] |}.

(** The script with the stand-ins plugged in. *)
Definition stub_main (collaborator :
                        Client -> GenerateCall -> unit
                        -> (PyExc + GenerateContentResponse) * unit)
  : str -> Script unit unit :=
  main Stub.json_loads stub_decode_message stub_message stub_message stub_repr
       collaborator.

End Lapida.

(* ===================================================================== *)
(** ** Strings, dictionaries and the validators *)
(* ===================================================================== *)

Arguments py : simpl never.

Lemma str_eqb_spec (a b : str) : reflect (a = b) (str_eqb a b).
Proof.
  revert b. induction a as [|x a IH]; intros [|y b]; simpl;
    try (constructor; congruence).
  destruct (N.eqb_spec x y) as [->|Hxy]; simpl.
  - destruct (IH b) as [->|Hab]; constructor; congruence.
  - constructor; congruence.
Qed.

Lemma str_eqb_refl (a : str) : str_eqb a a = true.
Proof. destruct (str_eqb_spec a a); congruence. Qed.

Lemma str_eqb_neq (a b : str) : a <> b -> str_eqb a b = false.
Proof. destruct (str_eqb_spec a b); congruence. Qed.

Lemma startswith_app (p s : str) : startswith p (p ++ s) = true.
Proof.
  induction p as [|x p IH]; simpl; [reflexivity|].
  rewrite N.eqb_refl, IH. reflexivity.
Qed.

(** Two texts that differ in their first character: the one does not start
    the other, whatever follows. *)
Lemma startswith_other_head (x y : N) (p p' q q' : str) (s : str) :
  p = x :: p' -> q = y :: q' -> x <> y -> startswith p (q ++ s) = false.
Proof.
  intros -> -> H. simpl. destruct (N.eqb_spec x y); [contradiction | reflexivity].
Qed.

(** An item under another key does not change what a key reads. *)
Lemma dict_get_skip (k k' : str) (v : json) (d1 d2 : dict) :
  k <> k' -> dict_get k (d1 ++ (k', v) :: d2) = dict_get k (d1 ++ d2).
Proof.
  intros H. induction d1 as [|[k1 v1] d1 IH]; simpl.
  - rewrite (str_eqb_neq H). reflexivity.
  - rewrite IH. reflexivity.
Qed.

(** [list[dict]] accepts exactly the lists of objects, and returns the
    objects in the order of the list. *)
Lemma as_list_of_dict_Some (l : list json) (ds : list dict) :
  as_list_of_dict l = Some ds <-> l = map JDict ds.
Proof.
  revert ds. induction l as [|j l IH]; intros ds; simpl.
  - split.
    + intros H. injection H as <-. reflexivity.
    + destruct ds; [reflexivity | discriminate].
  - split.
    + destruct j; simpl; try discriminate.
      destruct (as_list_of_dict l) as [ds'|] eqn:E; [|discriminate].
      intros H. injection H as <-. simpl. f_equal. apply IH. reflexivity.
    + destruct ds as [|d ds]; simpl; [discriminate|].
      intros H. injection H as -> Hl. simpl.
      apply IH in Hl. rewrite Hl. reflexivity.
Qed.

Lemma as_list_of_dict_map (ds : list dict) :
  as_list_of_dict (map JDict ds) = Some ds.
Proof. apply as_list_of_dict_Some. reflexivity. Qed.

(** The response model accepts a document exactly when it is an object
    whose [prompt_otimizado] is a string and whose [dicas_aplicadas] is a
    list of objects; the accepted object carries those two values. *)
Lemma OtimizacaoResponse_model_validate_Some (j : json) (r : OtimizacaoResponse) :
  OtimizacaoResponse_model_validate j = Some r <->
  exists items,
    j = JDict items /\
    dict_get (py "prompt_otimizado") items = Some (JStr (prompt_otimizado r)) /\
    dict_get (py "dicas_aplicadas") items = Some (JList (map JDict (dicas_aplicadas r))).
Proof.
  split.
  - destruct j as [| | | | |l|items]; simpl; try discriminate.
    destruct (dict_get (py "prompt_otimizado") items) as [[| | | |p| |]|] eqn:Ep;
      try discriminate.
    destruct (dict_get (py "dicas_aplicadas") items) as [[| | | | |l|]|] eqn:Ed;
      try discriminate.
    destruct (as_list_of_dict l) as [ds|] eqn:El; [|discriminate].
    intros H. injection H as <-. simpl.
    apply as_list_of_dict_Some in El. subst l.
    exists items. auto.
  - intros (items & -> & Hp & Hd). simpl. rewrite Hp, Hd, as_list_of_dict_map.
    destruct r; reflexivity.
Qed.

Lemma OtimizacaoResponse_model_validate_tips (j : json) (r : OtimizacaoResponse) :
  OtimizacaoResponse_model_validate j = Some r ->
  tips_field j = Some (JList (map JDict (dicas_aplicadas r))).
Proof.
  intros H. apply OtimizacaoResponse_model_validate_Some in H.
  destruct H as (items & -> & _ & Hd). exact Hd.
Qed.

(** The request model accepts a body exactly when its [prompt_original]
    is a string, whatever the string. *)
Lemma PromptRequest_model_validate_Some (body : json) (req : PromptRequest) :
  PromptRequest_model_validate body = Some req <->
  prompt_field (Some body) = Some (JStr (prompt_original req)).
Proof.
  destruct req as [s]. simpl.
  destruct body as [| | | | | |items]; simpl; try (split; discriminate).
  destruct (dict_get (py "prompt_original") items) as [[| | | |s'| |]|];
    try (split; discriminate).
  split; intros H; injection H as ->; reflexivity.
Qed.

(* ===================================================================== *)
(** ** The categories of the failures *)
(* ===================================================================== *)

Lemma DETAIL_GEMINI_head : DETAIL_GEMINI = 69%N :: tl DETAIL_GEMINI.
Proof. vm_compute. reflexivity. Qed.

Lemma DETAIL_NOT_JSON_head : DETAIL_NOT_JSON = 79%N :: tl DETAIL_NOT_JSON.
Proof. vm_compute. reflexivity. Qed.

Lemma DETAIL_SCHEMA_head : DETAIL_SCHEMA = 79%N :: tl DETAIL_SCHEMA.
Proof. vm_compute. reflexivity. Qed.

(** A detail written by the outer clause is a failure of the upstream
    call, whatever text follows the fixed beginning. *)
Lemma category_outer_clause (d : str) :
  category (Failure 500 (DETAIL_GEMINI ++ d)) = Some UpstreamUnavailable.
Proof.
  unfold category. change (500 =? 503)%Z with false. change (500 =? 500)%Z with true.
  cbv iota. rewrite (startswith_app DETAIL_GEMINI d).
  rewrite (startswith_other_head d DETAIL_NOT_JSON_head DETAIL_GEMINI_head) by discriminate.
  rewrite (startswith_other_head d DETAIL_SCHEMA_head DETAIL_GEMINI_head) by discriminate.
  reflexivity.
Qed.

Lemma category_unavailable (d : str) :
  category (Failure 503 d) = Some ServiceUnavailable.
Proof. reflexivity. Qed.

(** Only the 422 of request validation counts as an invalid request. *)
Lemma category_InvalidRequest (o : Outcome) :
  category o = Some InvalidRequest <-> o = Unprocessable.
Proof.
  split; [|intros ->; reflexivity].
  destruct o as [r|status detail| |e]; unfold category;
    try discriminate; [|reflexivity].
  destruct (status =? 503)%Z; [discriminate|].
  destruct (status =? 500)%Z; [|discriminate].
  destruct (startswith DETAIL_NOT_JSON detail); [discriminate|].
  destruct (startswith DETAIL_SCHEMA detail); [discriminate|].
  destruct (startswith DETAIL_GEMINI detail); discriminate.
Qed.

(* ===================================================================== *)
(** ** What one run of the handler does *)
(* ===================================================================== *)

Section HandlerFacts.

Variable json_loads : str -> option json.
Variable validation_message : str -> str.
Variable Remote : Type.
Variable generate_content :
  Client -> GenerateCall -> Remote -> (PyExc + GenerateContentResponse) * Remote.

Local Abbreviation handler :=
  (otimizar_prompt_api json_loads validation_message generate_content).
Local Abbreviation reply cl fr :=
  (fst (generate_content cl (outbound (request fr)) (remote (world fr)))).
Local Abbreviation sent cl fr :=
  (after_call generate_content cl (outbound (request fr)) fr).
Local Abbreviation post :=
  (post_otimizar json_loads validation_message generate_content).

(** The exception that leaves the handler when validation of the text
    [t] fails: the 500 of the inner [except Exception] clause, caught and
    raised again by the outer one. *)
Local Abbreviation rejected t :=
  (HTTPException 500
     (DETAIL_GEMINI
        ++ exc_str (HTTPException 500 (DETAIL_SCHEMA ++ validation_message t)))).

(** Without a client the handler raises the 503 and touches nothing. *)
Lemma run_without_client (fr : Frame Remote) :
  client (world fr) = None ->
  run handler fr = (inl (HTTPException 503 DETAIL_UNAVAILABLE), fr).
Proof.
  intros H. unfold run, otimizar_prompt_api. cbn. rewrite H. reflexivity.
Qed.

(** With a client, the handler sends one call and answers by cases on
    the reply. *)
Lemma run_with_client (fr : Frame Remote) (cl : Client) :
  client (world fr) = Some cl ->
  run handler fr =
  (match reply cl fr with
   | inl e => inl (HTTPException 500 (DETAIL_GEMINI ++ exc_str e))
   | inr response =>
     match json_loads (text response) with
     | Some j =>
       match OtimizacaoResponse_model_validate j with
       | Some validated => inr validated
       | None => inl (rejected (text response))
       end
     | None => inl (rejected (text response))
     end
   end, sent cl fr).
Proof.
  intros H. unfold run, otimizar_prompt_api. cbn. rewrite H. cbn.
  unfold outbound.
  destruct (fst (generate_content cl _ _)) as [e|response]; cbn; [reflexivity|].
  unfold OtimizacaoResponse_model_validate_json.
  destruct (json_loads (text response)) as [j|]; cbn; [|reflexivity].
  destruct (OtimizacaoResponse_model_validate j); reflexivity.
Qed.

(** Whatever is raised inside the inner [try], a [JSONDecodeError]
    included, leaves the outer [try] as the 500 of the outer clause. *)
Lemma raised_in_validation_is_caught_outside
      (body : Py Remote OtimizacaoResponse) (json_output : str)
      (fr fr' : Frame Remote) (e : PyExc) :
  run body fr = (inl e, fr') ->
  exists d,
    run (try_except (try_except body (@except_validation Remote json_output))
                    (@except_call Remote)) fr
    = (inl (HTTPException 500 (DETAIL_GEMINI ++ exc_str (HTTPException 500 d))), fr').
Proof.
  unfold run, try_except. cbn. intros H. rewrite H. cbn.
  destruct e; cbn; eexists; reflexivity.
Qed.

(** A valid request body reaches the handler. *)
Lemma post_handles (body : json) (req : PromptRequest) (w : World Remote) :
  PromptRequest_model_validate body = Some req ->
  post (Some body) w =
  (render (fst (run handler {| request := req; world := w |})),
   world (snd (run handler {| request := req; world := w |}))).
Proof. intros H. unfold post_otimizar. rewrite H. reflexivity. Qed.

Lemma validate_body_of (p : str) :
  PromptRequest_model_validate (JDict [(py "prompt_original", JStr p)])
  = Some {| prompt_original := p |}.
Proof.
  unfold PromptRequest_model_validate, dict_get. rewrite str_eqb_refl. reflexivity.
Qed.

(** The handler answers from the client and the reply alone; the module
    global [client] is never assigned. *)
Lemma post_keeps_client (body : option json) (w : World Remote) :
  client (snd (post body w)) = client w.
Proof.
  unfold post_otimizar. destruct body as [b|]; [|reflexivity].
  destruct (PromptRequest_model_validate b) as [req|]; [|reflexivity].
  cbn [snd]. destruct (client w) as [cl|] eqn:E.
  - rewrite (@run_with_client {| request := req; world := w |} cl E).
    cbn. exact E.
  - rewrite (@run_without_client {| request := req; world := w |} E).
    cbn. exact E.
Qed.

Lemma post_outcome_from_client (body : option json) (w1 w2 : World Remote) :
  deterministic generate_content ->
  client w1 = client w2 ->
  fst (post body w1) = fst (post body w2).
Proof.
  intros Hdet Hc. unfold post_otimizar. destruct body as [b|]; [|reflexivity].
  destruct (PromptRequest_model_validate b) as [req|]; [|reflexivity].
  cbn [fst]. destruct (client w2) as [cl|] eqn:E.
  - rewrite (@run_with_client {| request := req; world := w1 |} cl Hc).
    rewrite (@run_with_client {| request := req; world := w2 |} cl E).
    cbn [fst request world].
    rewrite (Hdet cl (outbound req) (remote w1) (remote w2)). reflexivity.
  - rewrite (@run_without_client {| request := req; world := w1 |} Hc).
    rewrite (@run_without_client {| request := req; world := w2 |} E).
    reflexivity.
Qed.

(* ------------------------------------------------------------------- *)
(** *** The claims about one call *)
(* ------------------------------------------------------------------- *)

(** C2, as amended.  Request validation answers with the client error of
    an invalid request exactly when the body carries no [prompt_original]
    or carries one that is not a string.  A string is accepted whatever
    it holds: the empty string and a string of blanks pass. *)
Theorem invalid_request_iff_prompt_not_a_string (body : option json) (w : World Remote) :
  category (fst (post body w)) = Some InvalidRequest <->
  (forall s : str, prompt_field body <> Some (JStr s)).
Proof.
  rewrite category_InvalidRequest. unfold post_otimizar. split.
  - intros H s Hs. destruct body as [b|]; [|discriminate Hs].
    destruct (PromptRequest_model_validate b) as [req|] eqn:E.
    + cbn [fst] in H. destruct (fst (run handler _)) as [[]|]; discriminate H.
    + assert (E' : PromptRequest_model_validate b = Some {| prompt_original := s |})
        by (apply PromptRequest_model_validate_Some; exact Hs).
      congruence.
  - intros H. destruct body as [b|]; [|reflexivity].
    destruct (PromptRequest_model_validate b) as [req|] eqn:E; [|reflexivity].
    apply PromptRequest_model_validate_Some in E. destruct (H _ E).
Qed.

(** C3, as amended.  A reply that decodes, but whose [dicas_aplicadas] is
    absent, is not a list, or is a list with an item that is not an
    object, is never returned: the call ends in an HTTP 500.  (A list of
    objects passes whatever the objects hold.) *)
Theorem tips_not_a_list_of_objects_rejected
        (fr : Frame Remote) (cl : Client) (response : GenerateContentResponse) (j : json) :
  client (world fr) = Some cl ->
  reply cl fr = inr response ->
  json_loads (text response) = Some j ->
  (forall ds : list dict, tips_field j <> Some (JList (map JDict ds))) ->
  exists detail : str,
    run handler fr = (inl (HTTPException 500 detail), sent cl fr).
Proof.
  intros Hc Hr Hj Hshape. rewrite (run_with_client fr Hc), Hr, Hj.
  destruct (OtimizacaoResponse_model_validate j) as [r|] eqn:E.
  - apply OtimizacaoResponse_model_validate_tips in E. destruct (Hshape _ E).
  - eexists. reflexivity.
Qed.

(** C5, as amended.  Whatever the prompt and whatever the collaborator
    does, a call ends in one of two ways: it returns the response that
    validation against [OtimizacaoResponse] built from the collaborator's
    text (a string and a list of objects, the objects of any content), or
    it fails with an [HTTPException] that falls in a failure category.
    No other exception leaves the handler. *)
Theorem optimize_returns_or_fails_typed (fr : Frame Remote) :
  let out := fst (run handler fr) in
  (exists (r : OtimizacaoResponse) (cl : Client)
          (response : GenerateContentResponse) (j : json),
      out = inr r /\
      client (world fr) = Some cl /\
      reply cl fr = inr response /\
      json_loads (text response) = Some j /\
      OtimizacaoResponse_model_validate j = Some r)
  \/
  (exists (status : Z) (detail : str) (c : FailureCategory),
      out = inl (HTTPException status detail) /\
      category (render out) = Some c).
Proof.
  intros out. subst out. destruct (client (world fr)) as [cl|] eqn:Hc.
  - rewrite (run_with_client fr Hc). cbn [fst].
    destruct (reply cl fr) as [e|response] eqn:Hr.
    + right. do 3 eexists. split; [reflexivity|]. apply category_outer_clause.
    + destruct (json_loads (text response)) as [j|] eqn:Hj.
      * destruct (OtimizacaoResponse_model_validate j) as [r|] eqn:Hv.
        -- left. exists r, cl, response, j. auto.
        -- right. do 3 eexists. split; [reflexivity|]. apply category_outer_clause.
      * right. do 3 eexists. split; [reflexivity|]. apply category_outer_clause.
  - rewrite (run_without_client fr Hc). right. do 3 eexists.
    split; [reflexivity|]. apply category_unavailable.
Qed.

(** C7.  When the call to the collaborator raises, the handler fails with
    the 500 of the upstream category whose detail carries the text of
    that exception; the trace grew by the one call (no second attempt),
    and the request object and the client are as they were. *)
Theorem collaborator_failure_reported_upstream
        (fr : Frame Remote) (cl : Client) (e : PyExc) :
  client (world fr) = Some cl ->
  reply cl fr = inl e ->
  let r := run handler fr in
  fst r = inl (HTTPException 500 (DETAIL_GEMINI ++ exc_str e)) /\
  category (render (fst r)) = Some UpstreamUnavailable /\
  calls (world (snd r)) = calls (world fr) ++ [outbound (request fr)] /\
  request (snd r) = request fr /\
  client (world (snd r)) = client (world fr).
Proof.
  intros Hc Hr r. subst r. rewrite (run_with_client fr Hc), Hr. cbn [fst snd].
  split; [reflexivity|]. split; [apply category_outer_clause|].
  cbn. auto.
Qed.

(** C8.  When the collaborator's text decodes to an object whose
    [prompt_otimizado] is a string and whose [dicas_aplicadas] is a list
    of objects, the handler returns a response with exactly that string
    and exactly those objects, in the order of the list. *)
Theorem valid_reply_returned_as_is
        (fr : Frame Remote) (cl : Client) (response : GenerateContentResponse)
        (items : dict) (p : str) (ds : list dict) :
  client (world fr) = Some cl ->
  reply cl fr = inr response ->
  json_loads (text response) = Some (JDict items) ->
  dict_get (py "prompt_otimizado") items = Some (JStr p) ->
  dict_get (py "dicas_aplicadas") items = Some (JList (map JDict ds)) ->
  run handler fr = (inr {| prompt_otimizado := p; dicas_aplicadas := ds |}, sent cl fr).
Proof.
  intros Hc Hr Hj Hp Hd. rewrite (run_with_client fr Hc), Hr, Hj.
  unfold OtimizacaoResponse_model_validate.
  rewrite Hp, Hd, as_list_of_dict_map. reflexivity.
Qed.

(** C10.  A top-level field the response model does not declare changes
    nothing: the document with the field is accepted like the document
    without it, and the response holds the two declared fields only. *)
Theorem unknown_field_ignored
        (fr : Frame Remote) (cl : Client) (response : GenerateContentResponse)
        (items1 items2 : dict) (k : str) (v : json) (p : str) (ds : list dict) :
  client (world fr) = Some cl ->
  reply cl fr = inr response ->
  json_loads (text response) = Some (JDict (items1 ++ (k, v) :: items2)) ->
  py "prompt_otimizado" <> k ->
  py "dicas_aplicadas" <> k ->
  dict_get (py "prompt_otimizado") (items1 ++ items2) = Some (JStr p) ->
  dict_get (py "dicas_aplicadas") (items1 ++ items2) = Some (JList (map JDict ds)) ->
  run handler fr = (inr {| prompt_otimizado := p; dicas_aplicadas := ds |}, sent cl fr).
Proof.
  intros Hc Hr Hj Hk1 Hk2 Hp Hd. rewrite (run_with_client fr Hc), Hr, Hj.
  unfold OtimizacaoResponse_model_validate.
  rewrite (dict_get_skip v items1 items2 Hk1), (dict_get_skip v items1 items2 Hk2).
  rewrite Hp, Hd, as_list_of_dict_map. reflexivity.
Qed.

(* ------------------------------------------------------------------- *)
(** *** Replies that validation refuses *)
(* ------------------------------------------------------------------- *)

(** C1, what the code does.  For a reply that is not JSON the handler
    never writes the message of its [except json.JSONDecodeError] clause
    nor the 200-character excerpt: validation raises a
    [ValidationError], the [except Exception] clause answers, and the
    outer [except Exception] catches that answer and raises it again as a
    failure of the Gemini call. *)
Theorem not_json_reply_reported_upstream
        (fr : Frame Remote) (cl : Client) (response : GenerateContentResponse) :
  client (world fr) = Some cl ->
  reply cl fr = inr response ->
  json_loads (text response) = None ->
  let out := fst (run handler fr) in
  out = inl (rejected (text response)) /\
  category (render out) = Some UpstreamUnavailable.
Proof.
  intros Hc Hr Hj out. subst out. rewrite (run_with_client fr Hc), Hr, Hj.
  cbn [fst render]. split; [reflexivity | apply category_outer_clause].
Qed.

(** C4, what the code does.  For a reply that is a JSON object without
    one of the two required fields, the 500 of the inner
    [except Exception] clause is caught by the outer one: the failure
    that reaches the caller starts with the text of a failed Gemini call
    and falls in the upstream category. *)
Theorem missing_field_reported_upstream
        (fr : Frame Remote) (cl : Client) (response : GenerateContentResponse)
        (items : dict) :
  client (world fr) = Some cl ->
  reply cl fr = inr response ->
  json_loads (text response) = Some (JDict items) ->
  dict_get (py "prompt_otimizado") items = None \/
  dict_get (py "dicas_aplicadas") items = None ->
  let out := fst (run handler fr) in
  out = inl (rejected (text response)) /\
  category (render out) = Some UpstreamUnavailable.
Proof.
  intros Hc Hr Hj Hmiss out. subst out. rewrite (run_with_client fr Hc), Hr, Hj.
  assert (Hv : OtimizacaoResponse_model_validate (JDict items) = None).
  { unfold OtimizacaoResponse_model_validate.
    destruct Hmiss as [-> | ->]; [reflexivity|].
    destruct (dict_get (py "prompt_otimizado") items) as [[]|]; reflexivity. }
  rewrite Hv. cbn [fst render].
  split; [reflexivity | apply category_outer_clause].
Qed.

(* ------------------------------------------------------------------- *)
(** *** The claims about several calls *)
(* ------------------------------------------------------------------- *)

Local Abbreviation serving := (serve json_loads validation_message generate_content).

Lemma post_without_client (p : str) (w : World Remote) :
  client w = None ->
  post (body_of p) w = (Failure 503 DETAIL_UNAVAILABLE, w).
Proof.
  intros H. unfold body_of. rewrite (post_handles _ w (validate_body_of p)).
  rewrite (@run_without_client {| request := {| prompt_original := p |}; world := w |} H).
  reflexivity.
Qed.

Lemma serve_without_client (prompts : list str) (w : World Remote) :
  client w = None ->
  serving (map body_of prompts) w
  = (map (fun _ => Failure 503 DETAIL_UNAVAILABLE) prompts, w).
Proof.
  intros H. induction prompts as [|p prompts IH]; [reflexivity|].
  cbn [map serve]. rewrite (post_without_client p w H). cbn [fst snd].
  rewrite IH. reflexivity.
Qed.

(** C6.  When [genai.Client()] raised at start, the module still loads
    and the service answers: every request, however many follow, gets the
    503 of the unavailable service, and the world is untouched after them
    (the trace of calls is still empty, the remote service was not
    reached). *)
Theorem failed_start_answers_503 (e : PyExc) (r : Remote) (prompts : list str) :
  let w := startup (inl e) r in
  serving (map body_of prompts) w
  = (map (fun _ => Failure 503 DETAIL_UNAVAILABLE) prompts, w) /\
  category (Failure 503 DETAIL_UNAVAILABLE) = Some ServiceUnavailable /\
  calls w = [] /\ remote w = r.
Proof.
  intros w. split; [apply serve_without_client; reflexivity|].
  split; [apply category_unavailable|]. split; reflexivity.
Qed.

(** C9.  Against a deterministic collaborator, the same request sent a
    second time gets the same answer as the first time: nothing a call
    leaves behind is read by the next one, and the client stays the
    one loaded at start. *)
Theorem same_request_same_answer (body : option json) (w : World Remote) :
  deterministic generate_content ->
  let first := post body w in
  let second := post body (snd first) in
  fst second = fst first /\ client (snd second) = client w.
Proof.
  intros Hdet first second. subst first second. split.
  - apply post_outcome_from_client; [exact Hdet | apply post_keeps_client].
  - rewrite !post_keeps_client. reflexivity.
Qed.

End HandlerFacts.

(* ===================================================================== *)
(** ** Concrete runs *)
(* ===================================================================== *)

(** The reply [not json at all], as the caller sees it. *)
Example not_json_detail_text :
  fst (Stub.post (Stub.replies Stub.not_json_reply) (body_of Stub.haiku_prompt) Stub.ready)
  = Failure 500
      (py "Erro na chamada da API Gemini: 500: O JSON retornado pelo modelo não corresponde à estrutura esperada. Erro de validação: 1 validation error for OtimizacaoResponse").
Proof. vm_compute. reflexivity. Qed.

Lemma not_json_reply_reported_upstream_witness :
  let out := fst (run (Stub.api (Stub.replies Stub.not_json_reply))
                      (Stub.frame_of Stub.haiku_prompt)) in
  out = inl (HTTPException 500
               (DETAIL_GEMINI
                  ++ exc_str (HTTPException 500
                                (DETAIL_SCHEMA
                                   ++ Stub.validation_message Stub.not_json_reply)))) /\
  category (render out) = Some UpstreamUnavailable.
Proof.
  apply (@not_json_reply_reported_upstream
           Stub.json_loads Stub.validation_message unit
           (Stub.replies Stub.not_json_reply)
           (Stub.frame_of Stub.haiku_prompt) Stub.a_client
           {| text := Stub.not_json_reply |});
    vm_compute; reflexivity.
Defined.

Lemma missing_field_reported_upstream_witness :
  let fr := Stub.frame_of Stub.haiku_prompt in
  let response := {| text := Stub.missing_tips_reply |} in
  let out := fst (run (otimizar_prompt_api
                         Stub.json_loads Stub.validation_message
                         (Stub.replies Stub.missing_tips_reply)) fr) in
  out = inl (HTTPException 500
               (DETAIL_GEMINI
                  ++ exc_str (HTTPException 500
                                (DETAIL_SCHEMA
                                   ++ Stub.validation_message (text response))))) /\
  category (render out) = Some UpstreamUnavailable.
Proof.
  intros fr response.
  apply (@missing_field_reported_upstream
           Stub.json_loads Stub.validation_message unit
           (Stub.replies Stub.missing_tips_reply)
           fr Stub.a_client response
           [(py "prompt_otimizado", JStr (py "x"))]);
    try (vm_compute; reflexivity).
  right. vm_compute. reflexivity.
Defined.

(** The reply that lacks [dicas_aplicadas], as the caller sees it. *)
Example missing_field_detail_text :
  fst (Stub.post (Stub.replies Stub.missing_tips_reply) (body_of Stub.haiku_prompt) Stub.ready)
  = Failure 500
      (py "Erro na chamada da API Gemini: 500: O JSON retornado pelo modelo não corresponde à estrutura esperada. Erro de validação: 1 validation error for OtimizacaoResponse").
Proof. vm_compute. reflexivity. Qed.

(** C2, counterexample.  The empty prompt and a prompt of three blanks
    pass request validation, and the call with the empty prompt goes
    through to a successful answer. *)
Lemma empty_prompt_accepted :
  PromptRequest_model_validate (JDict [(py "prompt_original", JStr (py ""))])
  = Some {| prompt_original := py "" |} /\
  PromptRequest_model_validate (JDict [(py "prompt_original", JStr (py "   "))])
  = Some {| prompt_original := py "   " |} /\
  category (fst (Stub.post (Stub.replies Stub.haiku_reply) (body_of (py "")) Stub.ready))
  <> Some InvalidRequest /\
  exists r, fst (Stub.post (Stub.replies Stub.haiku_reply) (body_of (py "")) Stub.ready)
            = Success r.
Proof.
  split; [vm_compute; reflexivity|]. split; [vm_compute; reflexivity|].
  split; [vm_compute; discriminate|]. eexists. vm_compute. reflexivity.
Qed.

(** C3, counterexample.  A reply whose [dicas_aplicadas] holds an object
    with another key and an object whose [estrategia] and [detalhes] are
    not strings is returned as a successful response, items untouched. *)
Lemma odd_tips_returned :
  fst (Stub.post (Stub.replies Stub.odd_tips_reply) (body_of Stub.haiku_prompt) Stub.ready)
  = Success {| prompt_otimizado := py "x";
               dicas_aplicadas :=
                 [ [(py "foo", JInt 1)];
                   [(py "estrategia", JInt 2); (py "detalhes", JNull)] ] |}.
Proof. vm_compute. reflexivity. Qed.

Lemma tips_not_a_list_of_objects_rejected_witness :
  exists detail : str,
    run (Stub.api (Stub.replies Stub.text_among_tips_reply))
        (Stub.frame_of Stub.haiku_prompt)
    = (inl (HTTPException 500 detail),
       after_call (Stub.replies Stub.text_among_tips_reply) Stub.a_client
                  (outbound {| prompt_original := Stub.haiku_prompt |})
                  (Stub.frame_of Stub.haiku_prompt)).
Proof.
  apply (@tips_not_a_list_of_objects_rejected
           Stub.json_loads Stub.validation_message unit
           (Stub.replies Stub.text_among_tips_reply)
           (Stub.frame_of Stub.haiku_prompt) Stub.a_client
           {| text := Stub.text_among_tips_reply |}
           (JDict [(py "prompt_otimizado", JStr (py "x"));
                   (py "dicas_aplicadas",
                    JList [JDict [(py "estrategia", JStr (py "Persona"));
                                  (py "detalhes", JStr (py "Added a role."))];
                           JStr (py "oops")])]));
    try (vm_compute; reflexivity).
  intros ds H. vm_compute in H.
  destruct ds as [|d1 [|d2 ds]]; discriminate H.
Defined.

Lemma collaborator_failure_reported_upstream_witness :
  let r := run (Stub.api (Stub.fails Stub.network_down)) (Stub.frame_of Stub.haiku_prompt) in
  fst r = inl (HTTPException 500 (DETAIL_GEMINI ++ exc_str Stub.network_down)) /\
  category (render (fst r)) = Some UpstreamUnavailable /\
  calls (world (snd r))
  = calls (world (Stub.frame_of Stub.haiku_prompt))
      ++ [outbound (request (Stub.frame_of Stub.haiku_prompt))] /\
  request (snd r) = request (Stub.frame_of Stub.haiku_prompt) /\
  client (world (snd r)) = client (world (Stub.frame_of Stub.haiku_prompt)).
Proof.
  apply (@collaborator_failure_reported_upstream
           Stub.json_loads Stub.validation_message unit
           (Stub.fails Stub.network_down)
           (Stub.frame_of Stub.haiku_prompt) Stub.a_client Stub.network_down);
    vm_compute; reflexivity.
Defined.

(** The failed call, as the caller sees it. *)
Example collaborator_failure_detail_text :
  fst (Stub.post (Stub.fails Stub.network_down) (body_of Stub.haiku_prompt) Stub.ready)
  = Failure 500 (py "Erro na chamada da API Gemini: [Errno 111] Connection refused").
Proof. vm_compute. reflexivity. Qed.

Lemma valid_reply_returned_as_is_witness :
  run (Stub.api (Stub.replies Stub.haiku_reply)) (Stub.frame_of Stub.haiku_prompt)
  = (inr {| prompt_otimizado :=
              py "Write a haiku about the sea, as a marine biologist, in exactly 3 lines.";
            dicas_aplicadas :=
              [ [(py "estrategia", JStr (py "Persona"));
                 (py "detalhes", JStr (py "Added a role."))] ] |},
     after_call (Stub.replies Stub.haiku_reply) Stub.a_client
                (outbound {| prompt_original := Stub.haiku_prompt |})
                (Stub.frame_of Stub.haiku_prompt)).
Proof.
  apply (@valid_reply_returned_as_is
           Stub.json_loads Stub.validation_message unit
           (Stub.replies Stub.haiku_reply)
           (Stub.frame_of Stub.haiku_prompt) Stub.a_client
           {| text := Stub.haiku_reply |}
           [(py "prompt_otimizado",
             JStr (py "Write a haiku about the sea, as a marine biologist, in exactly 3 lines."));
            (py "dicas_aplicadas",
             JList [JDict [(py "estrategia", JStr (py "Persona"));
                           (py "detalhes", JStr (py "Added a role."))]])]);
    vm_compute; reflexivity.
Defined.

Lemma same_request_same_answer_witness :
  let first := Stub.post (Stub.replies Stub.haiku_reply) (body_of Stub.haiku_prompt) Stub.ready in
  let second := Stub.post (Stub.replies Stub.haiku_reply) (body_of Stub.haiku_prompt) (snd first) in
  fst second = fst first /\ client (snd second) = client Stub.ready.
Proof.
  apply (@same_request_same_answer
           Stub.json_loads Stub.validation_message unit
           (Stub.replies Stub.haiku_reply) (body_of Stub.haiku_prompt) Stub.ready).
  intros cl call r1 r2. reflexivity.
Defined.

Lemma unknown_field_ignored_witness :
  run (Stub.api (Stub.replies Stub.extra_field_reply)) (Stub.frame_of Stub.haiku_prompt)
  = (inr {| prompt_otimizado := py "x"; dicas_aplicadas := [] |},
     after_call (Stub.replies Stub.extra_field_reply) Stub.a_client
                (outbound {| prompt_original := Stub.haiku_prompt |})
                (Stub.frame_of Stub.haiku_prompt)).
Proof.
  apply (@unknown_field_ignored
           Stub.json_loads Stub.validation_message unit
           (Stub.replies Stub.extra_field_reply)
           (Stub.frame_of Stub.haiku_prompt) Stub.a_client
           {| text := Stub.extra_field_reply |}
           [(py "prompt_otimizado", JStr (py "x"))]
           [(py "dicas_aplicadas", JList [])]
           (py "versao") (JInt 2) (py "x") []);
    try (vm_compute; reflexivity); vm_compute; discriminate.
Defined.

(** A service whose start failed, asked three times. *)
Example degraded_three_calls :
  fst (serve Stub.json_loads Stub.validation_message (Stub.replies Stub.haiku_reply)
             (map body_of [py "a"; py "b"; py "c"]) Stub.degraded)
  = [Failure 503 DETAIL_UNAVAILABLE; Failure 503 DETAIL_UNAVAILABLE;
     Failure 503 DETAIL_UNAVAILABLE].
Proof. vm_compute. reflexivity. Qed.

(* ===================================================================== *)
(** ** More about the service *)
(* ===================================================================== *)

Lemma as_list_of_dict_app (l1 l2 : list json) :
  as_list_of_dict (l1 ++ l2) =
  match as_list_of_dict l1, as_list_of_dict l2 with
  | Some ds1, Some ds2 => Some (ds1 ++ ds2)
  | _, _ => None
  end.
Proof.
  induction l1 as [|j l1 IH]; simpl.
  - destruct (as_list_of_dict l2); reflexivity.
  - destruct (as_dict j) as [d|]; [|reflexivity]. rewrite IH.
    destruct (as_list_of_dict l1), (as_list_of_dict l2); reflexivity.
Qed.

(** X1.  A list is refused as [list[dict]] exactly when one of its items
    is not a JSON object; one such item anywhere in the list is enough. *)
Theorem as_list_of_dict_None_iff (l : list json) :
  as_list_of_dict l = None <-> Exists (fun j => as_dict j = None) l.
Proof.
  induction l as [|j l IH]; simpl.
  - split; [discriminate | intros H; inversion H].
  - destruct (as_dict j) as [d|] eqn:Ej.
    + destruct (as_list_of_dict l) as [ds|].
      * split; [discriminate|]. intros H. inversion H as [? ? Hj|? ? Hl]; subst.
        -- congruence.
        -- apply IH in Hl. discriminate.
      * split; [|reflexivity]. intros _. apply Exists_cons_tl. apply IH. reflexivity.
    + split; [|reflexivity]. intros _. apply Exists_cons_hd. exact Ej.
Qed.

(** X2.  Dumping a response and validating the dump gives the response
    back: what the service sends is a document its own response model
    accepts, unchanged. *)
Theorem model_validate_model_dump (r : OtimizacaoResponse) :
  OtimizacaoResponse_model_validate (OtimizacaoResponse_model_dump r) = Some r.
Proof.
  apply OtimizacaoResponse_model_validate_Some.
  exists [ (py "prompt_otimizado", JStr (prompt_otimizado r));
           (py "dicas_aplicadas", JList (map JDict (dicas_aplicadas r))) ].
  split; [reflexivity|]. split.
  - unfold dict_get. rewrite str_eqb_refl. reflexivity.
  - unfold dict_get.
    replace (str_eqb (py "dicas_aplicadas") (py "prompt_otimizado")) with false
      by (vm_compute; reflexivity).
    rewrite str_eqb_refl. reflexivity.
Qed.

Section ServiceMore.

Variable json_loads : str -> option json.
Variable validation_message : str -> str.
Variable Remote : Type.
Variable generate_content :
  Client -> GenerateCall -> Remote -> (PyExc + GenerateContentResponse) * Remote.

Local Abbreviation handler :=
  (otimizar_prompt_api json_loads validation_message generate_content).
Local Abbreviation post :=
  (post_otimizar json_loads validation_message generate_content).
Local Abbreviation serving :=
  (serve json_loads validation_message generate_content).

(** The world after one handled request: only the remote service and the
    trace moved. *)
Lemma post_world (b : json) (req : PromptRequest) (w : World Remote) (cl : Client) :
  PromptRequest_model_validate b = Some req ->
  client w = Some cl ->
  snd (post (Some b) w)
  = {| client := client w;
       remote := snd (generate_content cl (outbound req) (remote w));
       calls := calls w ++ [outbound req] |}.
Proof.
  intros Hb Hc. rewrite (post_handles json_loads validation_message generate_content _ w Hb). cbn [snd].
  rewrite (run_with_client json_loads validation_message generate_content
             {| request := req; world := w |} Hc).
  reflexivity.
Qed.

(** X3.  Only the prompt string of a request body matters: a body with
    other fields beside [prompt_original], in any order, is answered
    exactly like the body that carries the prompt alone. *)
Theorem post_reads_prompt_only (body : option json) (p : str) (w : World Remote) :
  prompt_field body = Some (JStr p) ->
  post body w = post (body_of p) w.
Proof.
  intros H. destruct body as [b|]; [|discriminate H].
  assert (Hb : PromptRequest_model_validate b = Some {| prompt_original := p |})
    by (apply PromptRequest_model_validate_Some; exact H).
  unfold body_of.
  rewrite (post_handles json_loads validation_message generate_content _ w Hb), (post_handles json_loads validation_message generate_content _ w (validate_body_of p)).
  reflexivity.
Qed.

(** X4.  A body that fails request validation never reaches the handler:
    the answer is the 422 and the world is as before, no call was sent. *)
Theorem invalid_body_changes_nothing (body : option json) (w : World Remote) :
  (forall s : str, prompt_field body <> Some (JStr s)) ->
  post body w = (Unprocessable, w).
Proof.
  intros H. unfold post_otimizar. destruct body as [b|]; [|reflexivity].
  destruct (PromptRequest_model_validate b) as [req|] eqn:E; [|reflexivity].
  apply PromptRequest_model_validate_Some in E. destruct (H _ E).
Qed.


(** X6.  No call ever ends in the malformed-output or the schema-mismatch
    category: whatever the body, the client and the collaborator, the
    detail that reaches the caller never starts with the text of either
    inner [except] clause. *)
Theorem inner_categories_never_surface (body : option json) (w : World Remote) :
  category (fst (post body w)) <> Some MalformedOutput /\
  category (fst (post body w)) <> Some SchemaMismatch.
Proof.
  assert (H : category (fst (post body w)) = None \/
              category (fst (post body w)) = Some InvalidRequest \/
              category (fst (post body w)) = Some ServiceUnavailable \/
              category (fst (post body w)) = Some UpstreamUnavailable).
  { unfold post_otimizar. destruct body as [b|]; [|auto].
    destruct (PromptRequest_model_validate b) as [req|]; [|auto].
    cbn [fst]. destruct (client w) as [cl|] eqn:Hc.
    - rewrite (run_with_client json_loads validation_message generate_content
                 {| request := req; world := w |} Hc).
      cbn [fst].
      destruct (fst (generate_content cl _ _)) as [e|response];
        [right; right; right; apply category_outer_clause|].
      destruct (json_loads (text response)) as [j|];
        [|right; right; right; apply category_outer_clause].
      destruct (OtimizacaoResponse_model_validate j);
        [left; reflexivity | right; right; right; apply category_outer_clause].
    - rewrite (run_without_client json_loads validation_message generate_content
                 {| request := req; world := w |} Hc).
      right; right; left. reflexivity. }
  split; intros E; rewrite E in H;
    destruct H as [H|[H|[H|H]]]; discriminate H.
Qed.

Lemma serve_keeps_client (bodies : list (option json)) (w : World Remote) :
  client (snd (serving bodies w)) = client w.
Proof.
  revert w. induction bodies as [|b bodies IH]; intros w; [reflexivity|].
  cbn [serve snd]. rewrite IH. apply post_keeps_client.
Qed.

(** X7.  Against a deterministic collaborator the requests of a sequence
    do not influence one another: each is answered as if it were the
    first, whatever was asked before it and however those calls ended. *)
Theorem serve_answers_each_alone (bodies : list (option json)) (w : World Remote) :
  deterministic generate_content ->
  fst (serving bodies w) = map (fun b => fst (post b w)) bodies.
Proof.
  intros Hdet. revert w. induction bodies as [|b bodies IH]; intros w; [reflexivity|].
  cbn [serve fst map]. f_equal. rewrite IH. apply map_ext. intros b'.
  apply post_outcome_from_client; [exact Hdet | apply post_keeps_client].
Qed.

(** X8.  With a client, every valid request sends exactly one call,
    whatever the reply: after a sequence of requests the trace holds one
    call per prompt, in the order of the requests, each carrying the
    prompt as its only content. *)
Theorem serve_sends_one_call_each (prompts : list str) (w : World Remote) (cl : Client) :
  client w = Some cl ->
  calls (snd (serving (map body_of prompts) w))
  = calls w ++ map (fun p => outbound {| prompt_original := p |}) prompts.
Proof.
  revert w. induction prompts as [|p prompts IH]; intros w Hc.
  - cbn. rewrite app_nil_r. reflexivity.
  - cbn [map serve snd]. rewrite IH.
    + unfold body_of. rewrite (@post_world _ _ w cl (validate_body_of p) Hc).
      cbn [calls]. rewrite <- app_assoc. reflexivity.
    + rewrite post_keeps_client. exact Hc.
Qed.


End ServiceMore.

Lemma serve_answers_each_alone_witness :
  fst (serve Stub.json_loads Stub.validation_message (Stub.replies Stub.not_json_reply)
             [body_of Stub.haiku_prompt; None; body_of (py "again")] Stub.ready)
  = map (fun b => fst (Stub.post (Stub.replies Stub.not_json_reply) b Stub.ready))
        [body_of Stub.haiku_prompt; None; body_of (py "again")].
Proof.
  apply (@serve_answers_each_alone
           Stub.json_loads Stub.validation_message unit
           (Stub.replies Stub.not_json_reply)).
  intros cl call r1 r2. reflexivity.
Defined.

Lemma post_reads_prompt_only_witness :
  Stub.post (Stub.replies Stub.haiku_reply)
            (Some (JDict [(py "lang", JStr (py "pt")); (py "prompt_original", JStr (py "hi"))]))
            Stub.ready
  = Stub.post (Stub.replies Stub.haiku_reply) (body_of (py "hi")) Stub.ready.
Proof.
  apply (@post_reads_prompt_only
           Stub.json_loads Stub.validation_message unit
           (Stub.replies Stub.haiku_reply)).
  vm_compute. reflexivity.
Defined.

Lemma invalid_body_changes_nothing_witness :
  Stub.post (Stub.replies Stub.haiku_reply)
            (Some (JDict [(py "prompt_original", JInt 7)])) Stub.ready
  = (Unprocessable, Stub.ready).
Proof.
  apply (@invalid_body_changes_nothing
           Stub.json_loads Stub.validation_message unit
           (Stub.replies Stub.haiku_reply)).
  intros s H. vm_compute in H. discriminate H.
Defined.

Lemma serve_sends_one_call_each_witness :
  calls (snd (serve Stub.json_loads Stub.validation_message (Stub.replies Stub.not_json_reply)
                    (map body_of [py "a"; py "b"]) Stub.ready))
  = calls Stub.ready
      ++ map (fun p => outbound {| prompt_original := p |}) [py "a"; py "b"].
Proof.
  apply (@serve_sends_one_call_each
           Stub.json_loads Stub.validation_message unit
           (Stub.replies Stub.not_json_reply) [py "a"; py "b"] Stub.ready Stub.a_client).
  reflexivity.
Defined.


(* ===================================================================== *)
(** ** The command-line script *)
(* ===================================================================== *)

Section LapidaFacts.

Variable json_loads : str -> option json.
Variable decode_message : str -> str.
Variable subscript_message : json -> str.
Variable iter_message : json -> str.
Variable repr : json -> str.
Variable Remote : Type.
Variable generate_content :
  Client -> GenerateCall -> Remote -> (PyExc + GenerateContentResponse) * Remote.

Local Abbreviation Script := (Lapida.Script Remote).
Local Abbreviation Process := (Lapida.Process Remote).
Local Abbreviation otimizar_prompt := (Lapida.otimizar_prompt generate_content).
Local Abbreviation show_parsed :=
  (Lapida.show_parsed json_loads decode_message subscript_message iter_message repr Remote).
Local Abbreviation print_dica := (Lapida.print_dica subscript_message repr Remote).
Local Abbreviation print := (Lapida.print Remote).
Local Abbreviation write := (Lapida.write Remote).
Local Abbreviation result := (Lapida.result Remote).
Local Abbreviation format := (Lapida.format repr).
Local Abbreviation dica_line := (Lapida.dica_line repr).
Local Abbreviation main :=
  (Lapida.main json_loads decode_message subscript_message iter_message repr
               generate_content).
Local Abbreviation getitem := (Lapida.getitem subscript_message).
Local Abbreviation answer typed p :=
  (fst (generate_content (Lapida.client p) (Lapida.outbound typed) (Lapida.remote p))).

Lemma lapida_run_bind (A B : Type) (c : Script A) (f : A -> Script B) (p : Process) :
  Lapida.run (bind c f) p
  = match Lapida.run c p with
    | (inl e, p') => (inl e, p')
    | (inr a, p') => Lapida.run (f a) p'
    end.
Proof.
  unfold Lapida.run. cbn.
  destruct (runState (unEitherT c) p) as [[e|a] p']; reflexivity.
Qed.

Lemma lapida_run_try (A : Type) (c : Script A)
      (clauses : list (ExcClass * (PyExc -> Script A))) (p : Process) :
  Lapida.run (Lapida.try_except c clauses) p
  = match Lapida.run c p with
    | (inl e, p') => Lapida.run (Lapida.select_clause e clauses) p'
    | (inr a, p') => (inr a, p')
    end.
Proof.
  unfold Lapida.run, Lapida.try_except. cbn.
  destruct (runState (unEitherT c) p) as [[e|a] p']; reflexivity.
Qed.

Lemma lapida_run_print (s : str) (p : Process) :
  Lapida.run (print s) p = (inr tt, Lapida.wrote p [s ++ Lapida.nl]).
Proof. reflexivity. Qed.

Lemma lapida_run_write (s : str) (p : Process) :
  Lapida.run (write s) p = (inr tt, Lapida.wrote p [s]).
Proof. reflexivity. Qed.

Lemma lapida_run_result (A : Type) (r : PyExc + A) (p : Process) :
  Lapida.run (result r) p = (r, p).
Proof. destruct r; reflexivity. Qed.

Lemma wrote_wrote (p : Process) (l1 l2 : list str) :
  Lapida.wrote (Lapida.wrote p l1) l2 = Lapida.wrote p (l1 ++ l2).
Proof. unfold Lapida.wrote. cbn. rewrite <- app_assoc. reflexivity. Qed.

Lemma lapida_run_generate (m : str) (cs : list str) (cfg : GenerateContentConfig)
      (p : Process) :
  Lapida.run (Lapida.models_generate_content generate_content m cs cfg) p
  = (fst (generate_content (Lapida.client p)
                           {| model := m; contents := cs; config := cfg |}
                           (Lapida.remote p)),
     {| Lapida.client := Lapida.client p;
        Lapida.remote :=
          snd (generate_content (Lapida.client p)
                                {| model := m; contents := cs; config := cfg |}
                                (Lapida.remote p));
        Lapida.calls :=
          Lapida.calls p ++ [{| model := m; contents := cs; config := cfg |}];
        Lapida.stdout := Lapida.stdout p |}).
Proof.
  unfold Lapida.run, Lapida.models_generate_content. cbn.
  destruct (fst (generate_content (Lapida.client p) _ (Lapida.remote p)));
    reflexivity.
Qed.

(** What [otimizar_prompt] does, whatever the collaborator answers. *)
Lemma run_otimizar_prompt (prompt_original : str) (p : Process) :
  Lapida.run (otimizar_prompt prompt_original) p
  = (inr (Lapida.handed_back (answer prompt_original p)),
     Lapida.asked generate_content prompt_original p).
Proof.
  unfold Lapida.otimizar_prompt. rewrite lapida_run_bind, lapida_run_print.
  rewrite lapida_run_try, lapida_run_bind, lapida_run_generate.
  unfold Lapida.asked, Lapida.outbound, Lapida.wrote, Lapida.handed_back.
  cbn [Lapida.client Lapida.remote Lapida.calls Lapida.stdout].
  destruct (fst (generate_content (Lapida.client p) _ (Lapida.remote p)))
    as [e|response]; reflexivity.
Qed.

Lemma wrote_nil (p : Process) : Lapida.wrote p [] = p.
Proof. destruct p. unfold Lapida.wrote. cbn. rewrite app_nil_r. reflexivity. Qed.

Lemma run_print_dica_ok (d : dict) (p : Process) :
  Lapida.has_both d = true ->
  Lapida.run (print_dica (JDict d)) p = (inr tt, Lapida.wrote p [dica_line d]).
Proof.
  unfold Lapida.has_both, Lapida.print_dica, Lapida.dica_line, Lapida.getitem.
  destruct (dict_get (py "estrategia") d) as [e|]; [|discriminate].
  destruct (dict_get (py "detalhes") d) as [t|]; [|discriminate].
  intros _. rewrite lapida_run_bind, lapida_run_result.
  rewrite lapida_run_bind, lapida_run_result. apply lapida_run_print.
Qed.

Lemma run_print_dica_error (dica : json) (e : PyExc) (p : Process) :
  Lapida.dica_error subscript_message dica = Some e ->
  Lapida.run (print_dica dica) p = (inl e, p).
Proof.
  unfold Lapida.dica_error, Lapida.print_dica. intros H.
  rewrite lapida_run_bind, lapida_run_result.
  destruct (getitem dica (py "estrategia")) as [e1|v1].
  - injection H as ->. reflexivity.
  - rewrite lapida_run_bind, lapida_run_result.
    destruct (getitem dica (py "detalhes")) as [e2|v2]; [|discriminate H].
    injection H as ->. reflexivity.
Qed.

(** The loop over complete items prints one line each, in order. *)
Lemma run_for_each_complete (ds : list dict) (p : Process) :
  forallb Lapida.has_both ds = true ->
  Lapida.run (Lapida.for_each (map JDict ds) print_dica) p
  = (inr tt, Lapida.wrote p (map dica_line ds)).
Proof.
  revert p. induction ds as [|d ds IH]; intros p H.
  - cbn [map Lapida.for_each]. rewrite wrote_nil. reflexivity.
  - cbn [forallb] in H. apply andb_prop in H. destruct H as [Hd Hds].
    cbn [map Lapida.for_each]. rewrite lapida_run_bind, (@run_print_dica_ok _ _ Hd).
    rewrite (IH _ Hds), wrote_wrote. reflexivity.
Qed.

(** The loop stops at the first item its body fails on: the lines of the
    items before it are printed, nothing of the items after it. *)
Lemma run_for_each_stops (good : list dict) (bad : json) (rest : list json)
      (e : PyExc) (p : Process) :
  forallb Lapida.has_both good = true ->
  Lapida.dica_error subscript_message bad = Some e ->
  Lapida.run (Lapida.for_each (map JDict good ++ bad :: rest) print_dica) p
  = (inl e, Lapida.wrote p (map dica_line good)).
Proof.
  revert p. induction good as [|d good IH]; intros p H Hbad.
  - cbn [map app Lapida.for_each]. rewrite lapida_run_bind.
    rewrite (@run_print_dica_error _ _ _ Hbad), wrote_nil. reflexivity.
  - cbn [forallb] in H. apply andb_prop in H. destruct H as [Hd Hg].
    cbn [map app Lapida.for_each]. rewrite lapida_run_bind, (@run_print_dica_ok _ _ Hd).
    rewrite (IH _ Hg Hbad), wrote_wrote. reflexivity.
Qed.

Lemma dica_error_class (dica : json) (e : PyExc) :
  Lapida.dica_error subscript_message dica = Some e ->
  isinstance e cls_JSONDecodeError = false.
Proof.
  unfold Lapida.dica_error, Lapida.getitem. intros H.
  destruct dica as [| | | | | |d];
    try (injection H as <-; reflexivity).
  destruct (dict_get (py "estrategia") d); [|injection H as <-; reflexivity].
  destruct (dict_get (py "detalhes") d); [discriminate H|].
  injection H as <-. reflexivity.
Qed.

(** The readable view, down to the loop. *)
Lemma run_show_parsed (t : str) (items : dict) (v : json) (l : list json) (p : Process) :
  json_loads t = Some (JDict items) ->
  dict_get (py "prompt_otimizado") items = Some v ->
  dict_get (py "dicas_aplicadas") items = Some (JList l) ->
  Lapida.run (show_parsed t) p
  = Lapida.run (Lapida.for_each l print_dica)
               (Lapida.wrote p (Lapida.view_head repr v)).
Proof.
  intros Hj Hp Hd. unfold Lapida.show_parsed, Lapida.loads. rewrite Hj.
  rewrite lapida_run_bind. change (Lapida.run (ret (JDict items)) p)
    with (@inr PyExc json (JDict items), p). cbv iota beta.
  rewrite lapida_run_bind, lapida_run_print.
  rewrite lapida_run_bind, lapida_run_print.
  rewrite lapida_run_bind, lapida_run_print.
  unfold Lapida.getitem. rewrite Hp, Hd.
  rewrite lapida_run_bind, lapida_run_result.
  rewrite lapida_run_bind, lapida_run_print.
  rewrite lapida_run_bind, lapida_run_print.
  rewrite lapida_run_bind, lapida_run_result.
  rewrite lapida_run_bind. unfold Lapida.iter. rewrite lapida_run_result.
  rewrite !wrote_wrote. reflexivity.
Qed.

(** The script up to its [try] statement. *)
Lemma run_main (typed : str) (p : Process) :
  let p1 := Lapida.asked generate_content typed
                         (Lapida.wrote p [py "Digite o prompt a ser melhorado:" ++ Lapida.nl]) in
  let t := Lapida.handed_back
             (answer typed (Lapida.wrote p [py "Digite o prompt a ser melhorado:" ++ Lapida.nl])) in
  Lapida.run (main typed) p
  = match Lapida.run (show_parsed t)
                     (Lapida.wrote p1 [py "--- RESULTADO JSON RECEBIDO ---" ++ Lapida.nl;
                                       t ++ Lapida.nl]) with
    | (inl e, q) =>
      if isinstance e cls_JSONDecodeError
      then (inr tt,
            Lapida.wrote q [(Lapida.nl ++ py "ERRO: O modelo não retornou um JSON válido. Verifique o System Instruction.") ++ Lapida.nl])
      else (inr tt,
            Lapida.wrote q [(Lapida.nl ++ py "Ocorreu um erro ao processar o resultado: " ++ exc_str e) ++ Lapida.nl])
    | (inr u, q) => (inr u, q)
    end.
Proof.
  intros p1 t. subst p1 t. unfold Lapida.main.
  rewrite lapida_run_bind, lapida_run_write.
  rewrite lapida_run_bind, run_otimizar_prompt.
  rewrite lapida_run_bind, lapida_run_print.
  rewrite lapida_run_bind, lapida_run_print.
  rewrite lapida_run_try, wrote_wrote. cbn [app].
  destruct (Lapida.run (show_parsed _) _) as [[e|u] q]; [|reflexivity].
  cbn [Lapida.select_clause]. destruct (isinstance e cls_JSONDecodeError).
  - apply lapida_run_print.
  - change (isinstance e cls_Exception) with true. cbv iota. apply lapida_run_print.
Qed.

(* --------------------------------------------------------------------- *)
(** *** Computations that only write to the console *)
(* --------------------------------------------------------------------- *)

Local Abbreviation service q := (Lapida.client q, Lapida.remote q, Lapida.calls q).

Lemma quiet_bind (A B : Type) (c : Script A) (f : A -> Script B) :
  (forall q, service (snd (Lapida.run c q)) = service q) ->
  (forall a q, service (snd (Lapida.run (f a) q)) = service q) ->
  forall q, service (snd (Lapida.run (bind c f) q)) = service q.
Proof.
  intros Hc Hf q. rewrite lapida_run_bind. specialize (Hc q).
  destruct (Lapida.run c q) as [[e|a] q']; cbn [snd] in *; [exact Hc|].
  rewrite Hf. exact Hc.
Qed.

Lemma quiet_print (s : str) (q : Process) :
  service (snd (Lapida.run (print s) q)) = service q.
Proof. reflexivity. Qed.

Lemma quiet_result (A : Type) (r : PyExc + A) (q : Process) :
  service (snd (Lapida.run (result r) q)) = service q.
Proof. rewrite lapida_run_result. reflexivity. Qed.

Lemma quiet_loads (t : str) (q : Process) :
  service (snd (Lapida.run (Lapida.loads json_loads decode_message Remote t) q))
  = service q.
Proof. unfold Lapida.loads. destruct (json_loads t); reflexivity. Qed.

Lemma quiet_print_dica (dica : json) (q : Process) :
  service (snd (Lapida.run (print_dica dica) q)) = service q.
Proof.
  revert q. unfold Lapida.print_dica.
  apply quiet_bind; [apply quiet_result | intros v1].
  apply quiet_bind; [apply quiet_result | intros v2].
  apply quiet_print.
Qed.

Lemma quiet_for_each (l : list json) (q : Process) :
  service (snd (Lapida.run (Lapida.for_each l print_dica) q)) = service q.
Proof.
  revert q. induction l as [|x l IH]; [reflexivity|]. cbn [Lapida.for_each].
  apply quiet_bind; [apply quiet_print_dica | intros _; exact IH].
Qed.

Lemma quiet_show_parsed (t : str) (q : Process) :
  service (snd (Lapida.run (show_parsed t) q)) = service q.
Proof.
  revert q. unfold Lapida.show_parsed.
  apply quiet_bind; [apply quiet_loads | intros resultado].
  apply quiet_bind; [apply quiet_print | intros _].
  apply quiet_bind; [apply quiet_print | intros _].
  apply quiet_bind; [apply quiet_print | intros _].
  apply quiet_bind; [apply quiet_result | intros v].
  apply quiet_bind; [apply quiet_print | intros _].
  apply quiet_bind; [apply quiet_print | intros _].
  apply quiet_bind; [apply quiet_result | intros ds].
  apply quiet_bind; [apply quiet_result | intros l].
  apply quiet_for_each.
Qed.

(* --------------------------------------------------------------------- *)
(** *** What the script does *)
(* --------------------------------------------------------------------- *)



(** X12.  When the reply decodes to an object with both fields, and the
    items of [dicas_aplicadas] are objects that have [estrategia] and
    [detalhes], the console shows the text received, the head of the
    readable view and one line per item, in the order of the list. *)
Theorem main_prints_readable_view
        (typed : str) (p : Process) (response : GenerateContentResponse)
        (items : dict) (v : json) (ds : list dict) :
  answer typed p = inr response ->
  json_loads (text response) = Some (JDict items) ->
  dict_get (py "prompt_otimizado") items = Some v ->
  dict_get (py "dicas_aplicadas") items = Some (JList (map JDict ds)) ->
  forallb Lapida.has_both ds = true ->
  Lapida.stdout (snd (Lapida.run (main typed) p))
  = Lapida.stdout p
      ++ Lapida.preamble typed (text response)
      ++ Lapida.view_head repr v
      ++ map dica_line ds.
Proof.
  intros Ha Hj Hp Hd Hds. rewrite run_main.
  cbn [Lapida.wrote Lapida.client Lapida.remote]. rewrite Ha. cbn [Lapida.handed_back].
  rewrite (@run_show_parsed _ _ _ _ _ Hj Hp Hd), (@run_for_each_complete _ _ Hds).
  rewrite !wrote_wrote. unfold Lapida.wrote, Lapida.asked, Lapida.preamble.
  cbn [snd Lapida.stdout app]. rewrite <- !app_assoc. reflexivity.
Qed.

(** X13.  A failed call is shown as a formatting mistake of the model:
    the text of the exception is printed as the result received, and,
    since that text is not JSON, the script ends with the line that says
    the model did not return valid JSON. *)
Theorem main_shows_failed_call_as_invalid_json
        (typed : str) (p : Process) (e : PyExc) :
  answer typed p = inl e ->
  json_loads (py "Erro na chamada da API: " ++ exc_str e) = None ->
  Lapida.stdout (snd (Lapida.run (main typed) p))
  = Lapida.stdout p
      ++ Lapida.preamble typed (py "Erro na chamada da API: " ++ exc_str e)
      ++ [(Lapida.nl ++ py "ERRO: O modelo não retornou um JSON válido. Verifique o System Instruction.")
            ++ Lapida.nl].
Proof.
  intros Ha Hj. rewrite run_main.
  cbn [Lapida.wrote Lapida.client Lapida.remote]. rewrite Ha. cbn [Lapida.handed_back].
  unfold Lapida.show_parsed at 1. rewrite lapida_run_bind.
  unfold Lapida.loads at 1. rewrite Hj.
  change (Lapida.run (raise (JSONDecodeError ?m)) ?q) with (@inl PyExc json (JSONDecodeError m), q).
  cbv iota beta. cbn [isinstance].
  rewrite !wrote_wrote. unfold Lapida.wrote, Lapida.asked, Lapida.preamble.
  cbn [snd Lapida.stdout app]. rewrite <- !app_assoc. reflexivity.
Qed.

(** X14.  The loop over [dicas_aplicadas] stops at the first item it
    cannot read (not an object, or an object without [estrategia] or
    without [detalhes]): the lines of the items before it stay on the
    console, the items after it are not shown, and the last line carries
    the text of the exception. *)
Theorem main_stops_at_first_unreadable_dica
        (typed : str) (p : Process) (response : GenerateContentResponse)
        (items : dict) (v : json) (good : list dict) (bad : json) (rest : list json)
        (e : PyExc) :
  answer typed p = inr response ->
  json_loads (text response) = Some (JDict items) ->
  dict_get (py "prompt_otimizado") items = Some v ->
  dict_get (py "dicas_aplicadas") items = Some (JList (map JDict good ++ bad :: rest)) ->
  forallb Lapida.has_both good = true ->
  Lapida.dica_error subscript_message bad = Some e ->
  Lapida.stdout (snd (Lapida.run (main typed) p))
  = Lapida.stdout p
      ++ Lapida.preamble typed (text response)
      ++ Lapida.view_head repr v
      ++ map dica_line good
      ++ [(Lapida.nl ++ py "Ocorreu um erro ao processar o resultado: " ++ exc_str e)
            ++ Lapida.nl].
Proof.
  intros Ha Hj Hp Hd Hgood Hbad. rewrite run_main.
  cbn [Lapida.wrote Lapida.client Lapida.remote]. rewrite Ha. cbn [Lapida.handed_back].
  rewrite (@run_show_parsed _ _ _ _ _ Hj Hp Hd), (@run_for_each_stops _ _ _ _ _ Hgood Hbad).
  rewrite (@dica_error_class _ _ Hbad).
  rewrite !wrote_wrote. unfold Lapida.wrote, Lapida.asked, Lapida.preamble.
  cbn [snd Lapida.stdout app]. rewrite <- !app_assoc. reflexivity.
Qed.

(** The client and the trace after one run of the script. *)
Lemma main_service (typed : str) (p : Process) :
  Lapida.client (snd (Lapida.run (main typed) p)) = Lapida.client p /\
  Lapida.calls (snd (Lapida.run (main typed) p))
  = Lapida.calls p ++ [Lapida.outbound typed].
Proof.
  rewrite run_main.
  match goal with
  | |- context [Lapida.run (show_parsed ?t) ?q] =>
    pose proof (quiet_show_parsed t q) as Hq;
      destruct (Lapida.run (show_parsed t) q) as [[e|u] q']
  end; cbn [snd] in Hq; injection Hq as Hcl _ Hcalls.
  - destruct (isinstance e cls_JSONDecodeError);
      cbn [snd Lapida.wrote Lapida.calls Lapida.client];
      rewrite Hcl, Hcalls; split; reflexivity.
  - cbn [snd]. rewrite Hcl, Hcalls. split; reflexivity.
Qed.

(** X15.  One run of the script sends exactly one call, with the line
    typed as its only content, whatever the reply and whatever the
    readable view does; the client is the one the module loaded. *)
Theorem main_sends_exactly_one_call (typed : str) (p : Process) :
  Lapida.calls (snd (Lapida.run (main typed) p))
  = Lapida.calls p ++ [Lapida.outbound typed] /\
  contents (Lapida.outbound typed) = [typed] /\
  Lapida.client (snd (Lapida.run (main typed) p)) = Lapida.client p.
Proof.
  destruct (main_service typed p) as [Hcl Hcalls].
  split; [exact Hcalls|]. split; [reflexivity | exact Hcl].
Qed.

(** X16.  When [genai.Client()] raises, the script is over after two
    lines, the first with the text of the exception: nothing is asked and
    no call is sent.  When it succeeds, the whole program sends the one
    call of its run. *)
Theorem program_calls (ctor : PyExc + Client) (typed : str) (r : Remote) :
  let out := Lapida.program json_loads decode_message subscript_message iter_message
                            repr generate_content ctor typed r in
  match ctor with
  | inl e =>
    out = ([ py "Erro ao inicializar o cliente: " ++ exc_str e ++ Lapida.nl;
             py "Certifique-se de que a variável de ambiente GEMINI_API_KEY está configurada corretamente." ++ Lapida.nl ],
           [])
  | inr cl => snd out = [Lapida.outbound typed]
  end.
Proof.
  intros out. subst out. destruct ctor as [e|cl]; [reflexivity|].
  unfold Lapida.program. cbn [Lapida.load snd].
  apply (main_service typed
           {| Lapida.client := cl; Lapida.remote := r;
              Lapida.calls := []; Lapida.stdout := [] |}).
Qed.

End LapidaFacts.

Lemma main_prints_readable_view_witness :
  let p := Lapida.stub_process in
  let ds := [ [(py "estrategia", JStr (py "Persona"));
               (py "detalhes", JStr (py "Added a role."))] ] in
  let v := JStr (py "Write a haiku about the sea, as a marine biologist, in exactly 3 lines.") in
  let response := {| text := Stub.haiku_reply |} in
  Lapida.stdout
    (snd (Lapida.run
            (Lapida.main Stub.json_loads Lapida.stub_decode_message Lapida.stub_message
                         Lapida.stub_message Lapida.stub_repr
                         (Stub.replies Stub.haiku_reply) Stub.haiku_prompt) p))
  = Lapida.stdout p
      ++ Lapida.preamble Stub.haiku_prompt (text response)
      ++ Lapida.view_head Lapida.stub_repr v
      ++ map (Lapida.dica_line Lapida.stub_repr) ds.
Proof.
  intros p ds v response.
  apply (@main_prints_readable_view
           Stub.json_loads Lapida.stub_decode_message Lapida.stub_message
           Lapida.stub_message Lapida.stub_repr unit (Stub.replies Stub.haiku_reply)
           Stub.haiku_prompt p response
           [(py "prompt_otimizado", v); (py "dicas_aplicadas", JList (map JDict ds))]
           v ds);
    vm_compute; reflexivity.
Defined.

Lemma main_shows_failed_call_as_invalid_json_witness :
  let p := Lapida.stub_process in
  let e := Stub.network_down in
  Lapida.stdout
    (snd (Lapida.run
            (Lapida.main Stub.json_loads Lapida.stub_decode_message Lapida.stub_message
                         Lapida.stub_message Lapida.stub_repr
                         (Stub.fails Stub.network_down) Stub.haiku_prompt) p))
  = Lapida.stdout p
      ++ Lapida.preamble Stub.haiku_prompt (py "Erro na chamada da API: " ++ exc_str e)
      ++ [(Lapida.nl ++ py "ERRO: O modelo não retornou um JSON válido. Verifique o System Instruction.")
            ++ Lapida.nl].
Proof.
  intros p e.
  apply (@main_shows_failed_call_as_invalid_json
           Stub.json_loads Lapida.stub_decode_message Lapida.stub_message
           Lapida.stub_message Lapida.stub_repr unit (Stub.fails Stub.network_down)
           Stub.haiku_prompt p e);
    vm_compute; reflexivity.
Defined.

Lemma main_stops_at_first_unreadable_dica_witness :
  let p := Lapida.stub_process in
  let good := [ [(py "estrategia", JStr (py "Persona"));
                 (py "detalhes", JStr (py "Added a role."))] ] in
  let bad := JStr (py "oops") in
  let v := JStr (py "x") in
  let e := Lapida.TypeError (Lapida.stub_message bad) in
  let response := {| text := Stub.text_among_tips_reply |} in
  Lapida.stdout
    (snd (Lapida.run
            (Lapida.main Stub.json_loads Lapida.stub_decode_message Lapida.stub_message
                         Lapida.stub_message Lapida.stub_repr
                         (Stub.replies Stub.text_among_tips_reply) Stub.haiku_prompt) p))
  = Lapida.stdout p
      ++ Lapida.preamble Stub.haiku_prompt (text response)
      ++ Lapida.view_head Lapida.stub_repr v
      ++ map (Lapida.dica_line Lapida.stub_repr) good
      ++ [(Lapida.nl ++ py "Ocorreu um erro ao processar o resultado: " ++ exc_str e)
            ++ Lapida.nl].
Proof.
  intros p good bad v e response.
  apply (@main_stops_at_first_unreadable_dica
           Stub.json_loads Lapida.stub_decode_message Lapida.stub_message
           Lapida.stub_message Lapida.stub_repr unit
           (Stub.replies Stub.text_among_tips_reply)
           Stub.haiku_prompt p response
           [(py "prompt_otimizado", v);
            (py "dicas_aplicadas", JList (map JDict good ++ bad :: []))]
           v good bad [] e);
    vm_compute; reflexivity.
Defined.

(** A reply whose first [dica] has no [estrategia]: the last line on the
    console names the missing key. *)
Example missing_key_last_line :
  last (Lapida.stdout
          (snd (Lapida.run (Lapida.stub_main (Stub.replies Stub.odd_tips_reply)
                                             Stub.haiku_prompt)
                           Lapida.stub_process))) []
  = Lapida.nl ++ py "Ocorreu um erro ao processar o resultado: 'estrategia'" ++ Lapida.nl.
Proof. vm_compute. reflexivity. Qed.

(** The haiku reply on the console, line by line. *)
Example haiku_console :
  Lapida.stdout
    (snd (Lapida.run (Lapida.stub_main (Stub.replies Stub.haiku_reply) (py "sea"))
                     Lapida.stub_process))
  = map (fun s => s ++ Lapida.nl)
        [ py "Digite o prompt a ser melhorado:";
          py "--- PROMPT ORIGINAL ---" ++ Lapida.nl ++ py "sea" ++ Lapida.nl;
          py "--- RESULTADO JSON RECEBIDO ---";
          Stub.haiku_reply;
          Lapida.nl ++ py "==================================================";
          py "AGENT FÁCIL DE LER (PARSED):";
          py "==================================================";
          py "PROMPT OTIMIZADO:" ++ Lapida.nl
             ++ py "Write a haiku about the sea, as a marine biologist, in exactly 3 lines.";
          Lapida.nl ++ py "--- DICAS APLICADAS ---";
          py "- **Persona**: Added a role." ].
Proof. vm_compute. reflexivity. Qed.

(** C5, counterexample.  For a non-empty prompt and a collaborator that
    answers with a document whose [dicas_aplicadas] holds an object with
    another key and an object whose values are not strings, the handler
    returns a response, not a failure, and the response does not have the
    shape the specification calls well-formed. *)
Lemma returned_response_not_spec_shaped :
  prompt_original (request (Stub.frame_of Stub.haiku_prompt)) <> [] /\
  exists r : OtimizacaoResponse,
    fst (run (Stub.api (Stub.replies Stub.odd_tips_reply))
             (Stub.frame_of Stub.haiku_prompt)) = inr r /\
    spec_well_formed r = false /\
    category (render (inr r)) = None.
Proof.
  split; [vm_compute; discriminate|].
  eexists. split; [vm_compute; reflexivity|].
  split; vm_compute; reflexivity.
Qed.

(** The haiku reply of the specification does have that shape. *)
Example haiku_response_spec_shaped :
  exists r : OtimizacaoResponse,
    fst (run (Stub.api (Stub.replies Stub.haiku_reply))
             (Stub.frame_of Stub.haiku_prompt)) = inr r /\
    spec_well_formed r = true.
Proof. eexists. split; vm_compute; reflexivity. Qed.
